(** * github-webhook-listener: the webhook handler of [index.js]

    A shallow embedding of the request handler of [index.js] (signature
    check, event filter, GraphQL lookup, conditional issue update) and the
    theorems that relate it to its specification.

    - JavaScript values are JSON values plus [undefined].
    - The Node runtime and the libraries the handler calls ([crypto],
      [JSON.stringify], [axios], [fs]) are the fields of a [Platform]; the
      handler is a function of the platform, the process configuration and
      the request.
    - Effects are threaded explicitly: a state made of the outside world and
      the trace of everything the handler did to it, with JavaScript
      exceptions as the [Throw] outcome. *)

From Stdlib Require Import PrimFloat Ascii String.
From stdpp Require Import base option list strings gmap.

Local Open Scope string_scope.
Local Open Scope list_scope.

(** ** Strings

    JavaScript strings are modelled by [string], one character per code
    unit. *)

Module Str.

(** [s.startsWith(p)] *)
Fixpoint startsWith (p s : string) : bool :=
  match p, s with
  | EmptyString, _ => true
  | String a p', String b s' => if Ascii.eqb a b then startsWith p' s' else false
  | String _ _, EmptyString => false
  end.

(** [s.includes(t)]: [t] occurs in [s] as a substring. *)
Fixpoint includes (s t : string) : bool :=
  if startsWith t s then true
  else match s with
       | EmptyString => false
       | String _ s' => includes s' t
       end.

(** [s.split(sep)] for a one-character separator: the pieces between the
    occurrences of [sep], in order; never the empty array. *)
Fixpoint split (sep : ascii) (s : string) : list string :=
  match s with
  | EmptyString => [EmptyString]
  | String c s' =>
      if Ascii.eqb c sep then EmptyString :: split sep s'
      else match split sep s' with
           | [] => [String c EmptyString]
           | piece :: pieces => String c piece :: pieces
           end
  end.

(** [sep] does not occur in [s]. *)
Fixpoint free_of (sep : ascii) (s : string) : bool :=
  match s with
  | EmptyString => true
  | String c s' => negb (Ascii.eqb c sep) && free_of sep s'
  end.

Definition newline : ascii := Ascii.ascii_of_nat 10.
Definition slash : ascii := Ascii.ascii_of_nat 47.

(** The two line feeds of the template literal of [updateIssueBody]. *)
Definition blank_line : string := String newline (String newline EmptyString).

End Str.

(** ** JavaScript values *)

(** A parsed JSON value.  An object keeps its members in order (the order
  [JSON.stringify] prints them in), without repeated keys. *)
#[warnings="-register-all"]
Inductive Json : Type :=
| JNull
| JBool (b : bool)
| JNumber (x : float)
| JString (s : string)
| JArray (items : list Json)
| JObject (members : list (string * Json)).

(** A JavaScript value the handler can see: [None] is [undefined]. *)
Definition JsValue : Type := option Json.

(** A thrown JavaScript error.  [response] is [error.response.data] of an
  axios error that carries a response, and [None] for every other error
  ([error.response] is then [undefined]). *)
Record JsError : Type := mkError {
message : string;
response : option JsValue
}.

Definition TypeError (msg : string) : JsError := mkError msg None.

(** The completion of an evaluation: a value or a thrown error. *)
Inductive Outcome (A : Type) : Type :=
| Ok (a : A)
| Throw (e : JsError).
Arguments Ok {A} a.
Arguments Throw {A} e.

Module Js.

(** ToBoolean. *)
Definition truthy (v : JsValue) : bool :=
  match v with
  | None | Some JNull => false
  | Some (JBool b) => b
  | Some (JNumber x) => negb (PrimFloat.eqb x 0%float || PrimFloat.is_nan x)
  | Some (JString s) => negb (String.eqb s EmptyString)
  | Some (JArray _) | Some (JObject _) => true
  end.

(** Own member [name] of an object. *)
Fixpoint member (name : string) (members : list (string * Json)) : JsValue :=
  match members with
  | [] => None
  | (k, v) :: rest => if String.eqb k name then Some v else member name rest
  end.

(** [v.name], for the property names [index.js] reads ([action],
    [projects_v2_item], [project_node_id], [content_node_id], [errors],
    [data], [node], [url], [body]): none of them is a member of a built-in
    prototype, so only an object can have one, and reading any property
    of [undefined] or [null] throws. *)
Definition get (v : JsValue) (name : string) : Outcome JsValue :=
  match v with
  | None => Throw (TypeError ("Cannot read properties of undefined (reading '" +:+ name +:+ "')"))
  | Some JNull => Throw (TypeError ("Cannot read properties of null (reading '" +:+ name +:+ "')"))
  | Some (JObject members) => Ok (member name members)
  | Some _ => Ok None
  end.

(** [v?.name] *)
Definition get_opt (v : JsValue) (name : string) : Outcome JsValue :=
  match v with
  | None | Some JNull => Ok None
  | _ => get v name
  end.

(** [v === s] for a string [s]. *)
Definition is_string (v : JsValue) (s : string) : bool :=
  match v with
  | Some (JString t) => String.eqb t s
  | _ => false
  end.

(** [v === c] for [c] read from the environment: a string, or
    [undefined] when the variable is not set. *)
Definition strict_eq_env (v : JsValue) (c : option string) : bool :=
  match c with
  | Some s => is_string v s
  | None => match v with None => true | Some _ => false end
  end.

(** [`${x}`] for [x] a string or [undefined]. *)
Definition show (x : option string) : string := default "undefined" x.

(** [v || d] *)
Definition or_else (v : JsValue) (d : Json) : Json :=
  match v with
  | Some j => if truthy v then j else d
  | None => d
  end.

(** [v.split(sep)] for a one-character [sep]: only a string has the
    method. *)
Definition split (v : JsValue) (sep : ascii) : Outcome (list string) :=
  match v with
  | Some (JString s) => Ok (Str.split sep s)
  | None => Throw (TypeError "Cannot read properties of undefined (reading 'split')")
  | Some JNull => Throw (TypeError "Cannot read properties of null (reading 'split')")
  | Some _ => Throw (TypeError "issueUrl.split is not a function")
  end.

(** [j.includes(x)] for [x] a string or [undefined]: the substring test of
    a string (which converts [x] to a string), the element test of an
    array; no other JSON value has the method. *)
Definition includes (j : Json) (x : option string) : Outcome bool :=
  match j with
  | JString s => Ok (Str.includes s (show x))
  | JArray items =>
      Ok (existsb (fun i => match x with
                            | Some t => is_string (Some i) t
                            | None => false
                            end) items)
  | JNull => Throw (TypeError "Cannot read properties of null (reading 'includes')")
  | _ => Throw (TypeError "existingBody.includes is not a function")
  end.

(** [xs.join(sep)] over already converted elements. *)
Fixpoint join (sep : string) (xs : list string) : string :=
  match xs with
  | [] => EmptyString
  | [x] => x
  | x :: rest => x +:+ sep +:+ join sep rest
  end.

Section ToString.
(** Number::toString, of the runtime. *)
Variable number_toString : float -> string.

(** ToString of a JSON value, which can throw.  An object is converted by
    its [toString] method: the inherited one gives [[object Object]]; an
    own member of that name is JSON, so it is not callable, it is passed
    over, the inherited [valueOf] returns the object itself and the
    conversion throws.  An array prints its elements in order, separated
    by commas, a [null] element as nothing; the first element that cannot
    be converted throws. *)
Fixpoint toString (j : Json) : Outcome string :=
  match j with
  | JNull => Ok "null"
  | JBool true => Ok "true"
  | JBool false => Ok "false"
  | JNumber x => Ok (number_toString x)
  | JString s => Ok s
  | JArray items =>
      match (fix pieces (l : list Json) : Outcome (list string) :=
               match l with
               | [] => Ok []
               | i :: l' =>
                   match match i with JNull => Ok EmptyString | _ => toString i end with
                   | Ok piece =>
                       match pieces l' with
                       | Ok others => Ok (piece :: others)
                       | Throw e => Throw e
                       end
                   | Throw e => Throw e
                   end
               end) items with
      | Ok texts => Ok (join "," texts)
      | Throw e => Throw e
      end
  | JObject members =>
      match member "toString" members with
      | Some _ => Throw (TypeError "Cannot convert object to primitive value")
      | None => Ok "[object Object]"
      end
  end.

(** [`${v}`]: the text of a value in a template literal. *)
Definition template (v : JsValue) : Outcome string :=
  match v with
  | None => Ok "undefined"
  | Some j => toString j
  end.
End ToString.

End Js.

(** ** The platform, the configuration and the effects *)

Definition Headers : Type := list (string * string).

(** What [index.js] takes from Node and its libraries.  The outside world
    (GitHub, the file system) is a state the calls read and change; a call
    returns the [data] of the response, or throws. *)
Record Platform : Type := {
  World : Type;
  (** [crypto.createHmac('sha256', key).update(text).digest('hex')] *)
  hmac_sha256_hex : string -> string -> string;
  (** [JSON.stringify] *)
  JSON_stringify : Json -> string;
  (** Number::toString *)
  number_toString : float -> string;
  (** [axios.post(url, data, { headers })] *)
  axios_post : string -> Json -> Headers -> World -> Outcome JsValue * World;
  (** [axios.get(url, { headers })] *)
  axios_get : string -> Headers -> World -> Outcome JsValue * World;
  (** [axios.patch(url, data, { headers })] *)
  axios_patch : string -> Json -> Headers -> World -> Outcome JsValue * World;
  (** [fs.readFileSync(path, 'utf-8')] *)
  fs_readFileSync : string -> World -> Outcome string * World
}.

(** [process.env], read once when the module loads; a variable that is not
    set reads as [undefined]. *)
Record Config : Type := {
  GITHUB_WEBHOOK_SECRET : option string;
  GITHUB_TOKEN : option string;
  PROJECT_NODE_ID : option string
}.

Definition CHECKLIST_FILE : string := "checklist.md".
Definition X_HUB_SIGNATURE_256 : string := "x-hub-signature-256".
Definition SHA256_HEADER_PREFIX : string := "sha256=".

(** Lines written by [console.log].  A value passed as an argument is kept
    as the value (the console inspects it, which does not throw); a value
    printed by a template literal is kept as the text it was converted
    to. *)
Inductive LogLine : Type :=
| SignatureMismatch
| ProjectMismatch (projectNodeId : JsValue) (expected : option string)
| NotCreated (action : string)
| FoundContentNodeId (contentNodeId : string)
| IssueUrl (url : string)
| CouldNotFetchIssueDetails
| ContentNodeIdNotFound
| UpdatingIssueAt (url : string)
| IssueUpdated
| ChecklistAlreadyExists.

(** Lines written by [console.error]. *)
Inductive ErrorLine : Type :=
| ErrorFetchingIssueDetails (errors : JsValue)
| ErrorDuringGraphQLRequest (error : JsError)
| ErrorReadingChecklistFile (error : JsError)
| ErrorUpdatingIssue (detail : JsValue).

(** What the handler does to the outside, in order. *)
Inductive Event : Type :=
| AxiosPost (url : string) (data : Json) (headers : Headers)
| AxiosGet (url : string) (headers : Headers)
| AxiosPatch (url : string) (data : Json) (headers : Headers)
| ReadFileSync (path : string)
| ConsoleLog (line : LogLine)
| ConsoleError (line : ErrorLine).

(** The calls to the GitHub API: the GraphQL POST, the REST GET and the
    REST PATCH. *)
Definition is_api_call (e : Event) : bool :=
  match e with
  | AxiosPost _ _ _ | AxiosGet _ _ | AxiosPatch _ _ _ => true
  | _ => false
  end.

Definition is_patch (e : Event) : bool :=
  match e with
  | AxiosPatch _ _ _ => true
  | _ => false
  end.

Definition api_calls (t : list Event) : list Event := List.filter is_api_call t.
Definition patches (t : list Event) : list Event := List.filter is_patch t.

Record State (P : Platform) : Type := mkState {
  world : World P;
  trace : list Event
}.
Arguments mkState {P} world trace.
Arguments world {P} s.
Arguments trace {P} s.

(** A computation of [index.js]: it runs from a state to an outcome and a
    state.  An [async] function whose promise rejects is a computation that
    throws, and [await] is sequencing. *)
Definition M (P : Platform) (A : Type) : Type := State P -> Outcome A * State P.

#[global] Instance M_ret {P} : MRet (M P) := fun A a st => (Ok a, st).

#[global] Instance M_bind {P} : MBind (M P) := fun A B f m st =>
  match m st with
  | (Ok a, st') => f a st'
  | (Throw e, st') => (Throw e, st')
  end.

(** An evaluation that has no effect. *)
Definition lift {P A} (o : Outcome A) : M P A := fun st => (o, st).

(** [try { body } catch (error) { handler }] *)
Definition try_catch {P A} (body : M P A) (handler : JsError -> M P A) : M P A :=
  fun st =>
    match body st with
    | (Ok a, st') => (Ok a, st')
    | (Throw e, st') => handler e st'
    end.

Definition emit {P} (e : Event) : M P unit :=
  fun st => (Ok (), mkState (world st) (trace st ++ [e])).

(** A call to the outside: recorded, then answered by the platform. *)
Definition call {P A} (e : Event) (f : World P -> Outcome A * World P) : M P A :=
  fun st =>
    let '(r, w) := f (world st) in
    (r, mkState w (trace st ++ [e])).

Definition console_log {P} (l : LogLine) : M P unit := emit (ConsoleLog l).
Definition console_error {P} (l : ErrorLine) : M P unit := emit (ConsoleError l).

(** ** The program *)

(** [req], after [bodyParser.json()]: the headers (names in lower case, as
    Node gives them) and the parsed body.  The JSON body parser is strict:
    [req.body] is the object or array of the payload, or the empty object
    when the request has no JSON payload. *)
Inductive ParsedBody : Type :=
| BodyObject (members : list (string * Json))
| BodyArray (items : list Json).

Definition body_json (b : ParsedBody) : Json :=
  match b with
  | BodyObject members => JObject members
  | BodyArray items => JArray items
  end.
Coercion body_json : ParsedBody >-> Json.

(** [body.projects_v2_item?.name], for [body] the parsed body. *)
Definition item_field (b : ParsedBody) (name : string) : Outcome JsValue :=
  match Js.get (Some (b : Json)) "projects_v2_item" with
  | Ok item => Js.get_opt item name
  | Throw e => Throw e
  end.

Record Request : Type := {
  headers : gmap string string;
  body : ParsedBody
}.

(** [res.status(code).send(text)] *)
Record Response : Type := {
  status : nat;
  sent : string
}.

Record IssueDetails : Type := {
  url : JsValue;
  issue_body : JsValue
}.

Record Checklist : Type := {
  firstLine : option string;
  fullContent : string
}.

(** The query of [getIssueDetails]: a template literal over ten lines. *)
Definition query : string :=
  Js.join (String Str.newline EmptyString)
    [ EmptyString;
      "        query($id: ID!) {";
      "            node(id: $id) {";
      "                ... on Issue {";
      "                    url";
      "                    body";
      "                }";
      "            }";
      "        }";
      "    " ].

Section Handler.

Variable P : Platform.
Variable cfg : Config.

(** [crypto.createHmac('sha256', key)], which rejects a key that is not a
    string or a buffer. *)
Definition createHmac (key : option string) : Outcome (string -> string) :=
  match key with
  | Some k => Ok (hmac_sha256_hex P k)
  | None => Throw (TypeError "The key argument must be of type string")
  end.

(** The string [verifySignature] compares the header with. *)
Definition digest_of (hmac : string -> string) (req : Request) : string :=
  SHA256_HEADER_PREFIX +:+ hmac (JSON_stringify P (body req)).

Definition verifySignature (req : Request) : M P bool :=
  let signature := headers req !! X_HUB_SIGNATURE_256 in
  hmac ← lift (createHmac (GITHUB_WEBHOOK_SECRET cfg));
  let digest := digest_of hmac req in
  mret (match signature with
        | Some s => String.eqb s digest
        | None => false
        end).

Definition graphql_headers : Headers :=
  [ ("Content-Type", "application/json");
    ("Authorization", "Bearer " +:+ Js.show (GITHUB_TOKEN cfg)) ].

Definition rest_headers : Headers :=
  [ ("Authorization", "token " +:+ Js.show (GITHUB_TOKEN cfg));
    ("Accept", "application/vnd.github.v3+json") ].

(** [{ query: query, variables: { id: contentNodeId } }] as it is sent: a
    member whose value is [undefined] is left out. *)
Definition graphql_request (contentNodeId : JsValue) : Json :=
  JObject [ ("query", JString query);
            ("variables", JObject match contentNodeId with
                                  | Some id => [("id", id)]
                                  | None => []
                                  end) ].

Definition getIssueDetails (contentNodeId : JsValue) : M P (option IssueDetails) :=
  try_catch
    (data ← call (AxiosPost "https://api.github.com/graphql"
                            (graphql_request contentNodeId) graphql_headers)
                 (axios_post P "https://api.github.com/graphql"
                             (graphql_request contentNodeId) graphql_headers);
     errors ← lift (Js.get data "errors");
     if Js.truthy errors then
       _ ← console_error (ErrorFetchingIssueDetails errors);
       mret None
     else
       data' ← lift (Js.get data "data");
       node ← lift (Js.get data' "node");
       if Js.truthy node then
         u ← lift (Js.get node "url");
         b ← lift (Js.get node "body");
         mret (Some {| url := u; issue_body := b |})
       else mret None)
    (fun error =>
       _ ← console_error (ErrorDuringGraphQLRequest error);
       mret None).

Definition readChecklist : M P (option Checklist) :=
  try_catch
    (content ← call (ReadFileSync CHECKLIST_FILE) (fs_readFileSync P CHECKLIST_FILE);
     let lines := Str.split Str.newline content in
     mret (Some {| firstLine := lines !! 0; fullContent := content |}))
    (fun error =>
       _ ← console_error (ErrorReadingChecklistFile error);
       mret None).

(** The address of the REST calls, from the pieces of the issue URL. *)
Definition rest_url (issueUrlParts : list string) : string :=
  let owner := issueUrlParts !! 3 in
  let repo := issueUrlParts !! 4 in
  let issueNumber := issueUrlParts !! 6 in
  "https://api.github.com/repos/" +:+ Js.show owner +:+ "/" +:+ Js.show repo
    +:+ "/issues/" +:+ Js.show issueNumber.

(** [error.response ? error.response.data : error.message] *)
Definition error_detail (error : JsError) : JsValue :=
  match response error with
  | Some data => data
  | None => Some (JString (message error))
  end.

(** The [try] block of [updateIssueBody]. *)
Definition updateIssueBody_try (issueUrlParts : list string) : M P unit :=
  let url := rest_url issueUrlParts in
  _ ← console_log (UpdatingIssueAt url);
  data ← call (AxiosGet url rest_headers) (axios_get P url rest_headers);
  b ← lift (Js.get data "body");
  let existingBody := Js.or_else b (JString EmptyString) in
  checklist ← readChecklist;
  match checklist with
  | Some c =>
      found ← lift (Js.includes existingBody (firstLine c));
      if negb found then
        existing ← lift (Js.toString (number_toString P) existingBody);
        let updatedBody := existing +:+ Str.blank_line +:+ fullContent c in
        _ ← call (AxiosPatch url (JObject [("body", JString updatedBody)]) rest_headers)
                 (axios_patch P url (JObject [("body", JString updatedBody)]) rest_headers);
        console_log IssueUpdated
      else console_log ChecklistAlreadyExists
  | None => console_log ChecklistAlreadyExists
  end.

Definition updateIssueBody (issueUrl : JsValue) : M P unit :=
  issueUrlParts ← lift (Js.split issueUrl Str.slash);
  try_catch
    (updateIssueBody_try issueUrlParts)
    (fun error => console_error (ErrorUpdatingIssue (error_detail error))).

(** The [if (contentNodeId)] block of the handler.  The two lines it logs
    with a template literal convert the value to text first, which can
    throw.  ([updateIssueBody] is called with a second argument, which it
    does not take.) *)
Definition webhook_update (contentNodeId : JsValue) : M P unit :=
  if Js.truthy contentNodeId then
    found ← lift (Js.template (number_toString P) contentNodeId);
    _ ← console_log (FoundContentNodeId found);
    issueDetails ← getIssueDetails contentNodeId;
    match issueDetails with
    | Some d =>
        if Js.truthy (url d) then
          address ← lift (Js.template (number_toString P) (url d));
          _ ← console_log (IssueUrl address);
          updateIssueBody (url d)
        else console_log CouldNotFetchIssueDetails
    | None => console_log CouldNotFetchIssueDetails
    end
  else console_log ContentNodeIdNotFound.

(** [app.post('/webhook', ...)].  A computation that throws is a handler
    whose promise rejects: no response is sent.  The line about the action
    is a template literal: the action is converted to text, which can
    throw, before anything is written or answered. *)
Definition webhook (req : Request) : M P Response :=
  verified ← verifySignature req;
  if negb verified then
    _ ← console_log SignatureMismatch;
    mret {| status := 403; sent := "Signature mismatch!" |}
  else
    projectNodeId ← lift (item_field (body req) "project_node_id");
    if negb (Js.strict_eq_env projectNodeId (PROJECT_NODE_ID cfg)) then
      _ ← console_log (ProjectMismatch projectNodeId (PROJECT_NODE_ID cfg));
      mret {| status := 200; sent := "No action taken." |}
    else
      contentNodeId ← lift (item_field (body req) "content_node_id");
      action ← lift (Js.get (Some (body req : Json)) "action");
      if negb (Js.is_string action "created") then
        given ← lift (Js.template (number_toString P) action);
        _ ← console_log (NotCreated given);
        mret {| status := 200; sent := "No action taken for non-created action." |}
      else
        _ ← webhook_update contentNodeId;
        mret {| status := 200; sent := "Webhook received and processed!" |}.

End Handler.

(** ** Notions of the specification *)

(** The string the header must be: [sha256=] and the hex digest of the
    serialized body under the key [secret]. *)
Definition expected_signature (P : Platform) (secret : string) (req : Request) : string :=
  "sha256=" +:+ hmac_sha256_hex P secret (JSON_stringify P (body req)).

(** Between [st] and [st'] the handler made no call to the GitHub API: it
    left the world as it was and recorded no call. *)
Definition no_api_call {P} (st st' : State P) : Prop :=
  world st' = world st /\
  exists lines, trace st' = trace st ++ lines /\ api_calls lines = [].

(** Between [st] and [st'] the handler sent no PATCH. *)
Definition no_patch {P} (st st' : State P) : Prop :=
  exists events, trace st' = trace st ++ events /\ patches events = [].

(** The address of an issue as the GraphQL [url] field gives it. *)
Definition html_address (owner repo number : string) : string :=
  "https://github.com/" +:+ owner +:+ "/" +:+ repo +:+ "/issues/" +:+ number.

(** The address of an issue in the REST API. *)
Definition rest_address (owner repo number : string) : string :=
  "https://api.github.com/repos/" +:+ owner +:+ "/" +:+ repo +:+ "/issues/" +:+ number.

(** An event that is no API call, or a REST GET or PATCH at [address]. *)
Definition aimed_at (address : string) (e : Event) : Prop :=
  match e with
  | AxiosGet u _ | AxiosPatch u _ _ => u = address
  | AxiosPost _ _ _ => False
  | _ => True
  end.

(** The PATCH that appends [content] to the body [existing] of the issue
    at [address]. *)
Definition append_patch (cfg : Config) (address existing content : string) : Event :=
  AxiosPatch address
    (JObject [("body", JString (existing +:+ Str.blank_line +:+ content))])
    (rest_headers cfg).

(** [t] occurs in [s]. *)
Definition substring (t s : string) : Prop :=
  exists before after, s = before +:+ t +:+ after.

(** In the world [w], whatever was traced before, [getIssueDetails] gives for
    [contentNodeId] no [url] other than a string or a falsy value: the
    GraphQL [url] of an issue is a URI, which is a string. *)
Definition url_is_text (P : Platform) (cfg : Config) (contentNodeId : JsValue)
    (w : World P) : Prop :=
  forall t d st',
    getIssueDetails P cfg contentNodeId (mkState w t) = (Ok (Some d), st') ->
    Js.truthy (url d) = true ->
    exists u, url d = Some (JString u).

(** The one call [getIssueDetails] makes. *)
Definition graphql_call (P : Platform) (cfg : Config) (contentNodeId : JsValue)
  : Event * (World P -> Outcome JsValue * World P) :=
  (AxiosPost "https://api.github.com/graphql" (graphql_request contentNodeId)
             (graphql_headers cfg),
   axios_post P "https://api.github.com/graphql" (graphql_request contentNodeId)
              (graphql_headers cfg)).

Arguments createHmac P key : simpl never.
Arguments rest_url issueUrlParts : simpl never.

(** ** A small platform to run the handler on

    A GitHub with issues kept by REST address and a file system, enough to
    evaluate the handler on concrete requests.  The keyed digest and the
    serializer are stand-ins with the types of the real ones. *)

Module Demo.

Record outside : Type := {
  issues : gmap string Json;   (** REST address of an issue, to its [body] *)
  writable : bool;             (** whether the token may edit issues *)
  files : gmap string string
}.

Definition quote : string := String (Ascii.ascii_of_nat 34) EmptyString.

Definition hmac (key text : string) : string := key +:+ "/" +:+ text.

Fixpoint stringify (j : Json) : string :=
  match j with
  | JNull => "null"
  | JBool true => "true"
  | JBool false => "false"
  | JNumber _ => "0"
  | JString s => quote +:+ s +:+ quote
  | JArray items => "[" +:+ Js.join "," (map stringify items) +:+ "]"
  | JObject members =>
      "{" +:+ Js.join "," (map (fun kv => quote +:+ fst kv +:+ quote +:+ ":" +:+ stringify (snd kv))
                               members) +:+ "}"
  end.

Definition not_found : JsError :=
  mkError "Request failed with status code 404"
          (Some (Some (JObject [("message", JString "Not Found")]))).

Definition network_error : JsError := mkError "getaddrinfo ENOTFOUND api.github.com" None.

Definition no_such_file : JsError :=
  mkError "ENOENT: no such file or directory, open 'checklist.md'" None.

Definition issue_7 : string := "https://github.com/octo/demo/issues/7".

(** The GraphQL endpoint knows one issue, one node that is not there, and
    one it refuses; any other identifier fails in transport. *)
Definition post (_ : string) (data : Json) (_ : Headers) (w : outside)
  : Outcome JsValue * outside :=
  match Js.get (Some data) "variables" with
  | Ok variables =>
      match Js.get variables "id" with
      | Ok (Some (JString "I_issue")) =>
          (Ok (Some (JObject [("data", JObject [("node",
                 JObject [("url", JString issue_7); ("body", JString "Hello")])])])), w)
      | Ok (Some (JString "I_gone")) =>
          (Ok (Some (JObject [("data", JObject [("node", JNull)])])), w)
      | Ok (Some (JString "I_refused")) =>
          (Ok (Some (JObject [("data", JNull);
                              ("errors", JArray [JObject [("type", JString "FORBIDDEN")]])])), w)
      | _ => (Throw network_error, w)
      end
  | Throw e => (Throw e, w)
  end.

Definition get (address : string) (_ : Headers) (w : outside) : Outcome JsValue * outside :=
  match issues w !! address with
  | Some b => (Ok (Some (JObject [("body", b)])), w)
  | None => (Throw not_found, w)
  end.

Definition forbidden : JsError :=
  mkError "Request failed with status code 403"
          (Some (Some (JObject [("message", JString "Resource not accessible")]))).

Definition patch (address : string) (data : Json) (_ : Headers) (w : outside)
  : Outcome JsValue * outside :=
  if writable w then
    match issues w !! address, Js.get (Some data) "body" with
    | Some _, Ok (Some b) =>
        (Ok (Some (JObject [("body", b)])),
         {| issues := <[address := b]> (issues w); writable := true; files := files w |})
    | _, _ => (Throw not_found, w)
    end
  else (Throw forbidden, w).

Definition readFileSync (path : string) (w : outside) : Outcome string * outside :=
  match files w !! path with
  | Some content => (Ok content, w)
  | None => (Throw no_such_file, w)
  end.

Definition platform : Platform := {|
  World := outside;
  hmac_sha256_hex := hmac;
  JSON_stringify := stringify;
  number_toString := fun _ => "0";
  axios_post := post;
  axios_get := get;
  axios_patch := patch;
  fs_readFileSync := readFileSync
|}.

Definition config : Config := {|
  GITHUB_WEBHOOK_SECRET := Some "s3cret";
  GITHUB_TOKEN := Some "ghp_token";
  PROJECT_NODE_ID := Some "PVT_1"
|}.

Definition nl : string := String Str.newline EmptyString.

(** The template of the specification's end-to-end example. *)
Definition template : string := "## Checklist" +:+ nl +:+ "- [ ] Step 1".

Definition rest_7 : string := "https://api.github.com/repos/octo/demo/issues/7".

Definition github (issue_body : Json) : outside := {|
  issues := {[ rest_7 := issue_body ]};
  writable := true;
  files := {[ CHECKLIST_FILE := template ]}
|}.

Definition start (w : outside) : State platform := mkState (w : World platform) [].

Definition payload_in (project action id : string) : ParsedBody :=
  BodyObject [ ("action", JString action);
               ("projects_v2_item",
                JObject [ ("project_node_id", JString project);
                          ("content_node_id", JString id) ]) ].

Definition payload : string -> string -> ParsedBody := payload_in "PVT_1".

(** A request signed the way the demo platform checks it. *)
Definition signed (b : ParsedBody) : Request := {|
  headers := {[ X_HUB_SIGNATURE_256 := "sha256=" +:+ hmac "s3cret" (stringify b) ]};
  body := b
|}.

Definition unsigned (b : ParsedBody) : Request := {| headers := ∅; body := b |}.

(** A request with a signature that is not the expected one. *)
Definition forged (b : ParsedBody) : Request := {|
  headers := {[ X_HUB_SIGNATURE_256 := "sha256=00ff" ]};
  body := b
|}.

(** The body of issue 7 once the template has been appended to [Hello]. *)
Definition appended : string := "Hello" +:+ nl +:+ nl +:+ template.

(** The start of a run against a GitHub whose issue 7 already has the
    checklist. *)
Definition done : State platform := start (github (JString appended)).

(** The start of a run where the template file is empty and issue 7 has no
    body. *)
Definition blank : State platform :=
  start {| issues := {[ rest_7 := JNull ]};
           writable := true;
           files := {[ CHECKLIST_FILE := EmptyString ]} |}.

(** The start of a run where the token may not edit issue 7. *)
Definition read_only : State platform :=
  start {| issues := {[ rest_7 := JString "Hello" ]};
           writable := false;
           files := {[ CHECKLIST_FILE := template ]} |}.

(** The start of a run where the checklist file is missing. *)
Definition no_file : State platform :=
  start {| issues := {[ rest_7 := JString "Hello" ]}; writable := true; files := ∅ |}.

(** An issue URL with the last two pieces missing. *)
Definition short_url : string := "https://github.com/octo/demo".

(** The start of a run against a GitHub whose issue 7 has body [Hello]. *)
Definition hello : State platform := start (github (JString "Hello")).

Definition created : ParsedBody := payload "created" "I_issue".

End Demo.


(** ** Notions of the further properties *)

(** The state in which the handler asks for the issue: it has written the
    text of the identifier it found. *)
Definition asking {P} (st : State P) (found : string) : State P :=
  mkState (world st) (trace st ++ [ConsoleLog (FoundContentNodeId found)]).

(** Nothing to update: the resolver gave [null], or details whose [url] is
    falsy. *)
Definition unresolved (details : option IssueDetails) : bool :=
  match details with
  | Some d => negb (Js.truthy (url d))
  | None => true
  end.

(** The API calls of one run of the handler, in order: nothing; or the
    GraphQL POST; or the POST and a GET; or the POST, a GET and a PATCH at
    the address of the GET whose data is one [body] string.  The REST calls
    carry the REST headers. *)
Definition in_order (P : Platform) (cfg : Config) (calls : list Event) : Prop :=
  calls = [] \/
  exists id,
    calls = [fst (graphql_call P cfg id)] \/
    exists address,
      calls = [fst (graphql_call P cfg id); AxiosGet address (rest_headers cfg)] \/
      exists text,
        calls = [fst (graphql_call P cfg id);
                 AxiosGet address (rest_headers cfg);
                 AxiosPatch address (JObject [("body", JString text)]) (rest_headers cfg)].

(** The number of occurrences of [sep] in [s]. *)
Fixpoint occurrences (sep : ascii) (s : string) : nat :=
  match s with
  | EmptyString => 0
  | String c s' => (if Ascii.eqb c sep then 1 else 0) + occurrences sep s'
  end.

(** Seven pieces joined by slashes, and whatever follows the seventh. *)
Definition seven_pieces (p0 p1 p2 owner repo kind number tail : string) : string :=
  p0 +:+ "/" +:+ p1 +:+ "/" +:+ p2 +:+ "/" +:+ owner +:+ "/" +:+ repo +:+ "/"
     +:+ kind +:+ "/" +:+ number +:+ tail.

(** Further runs on the small platform. *)
Module Cases.

(** A JSON object that cannot be converted to text: its own [toString] is
    not a function. *)
Definition odd : Json := JObject [("toString", JNumber 1%float)].

(** A payload of the target project whose action is such an object. *)
Definition odd_action : ParsedBody :=
  BodyObject [ ("action", odd);
               ("projects_v2_item",
                JObject [ ("project_node_id", JString "PVT_1");
                          ("content_node_id", JString "I_issue") ]) ].

(** A payload of the target project whose content identifier is such an
    object. *)
Definition odd_content : ParsedBody :=
  BodyObject [ ("action", JString "created");
               ("projects_v2_item",
                JObject [ ("project_node_id", JString "PVT_1");
                          ("content_node_id", odd) ]) ].

(** A payload of the target project with no content identifier. *)
Definition no_content : ParsedBody :=
  BodyObject [ ("action", JString "created");
               ("projects_v2_item", JObject [("project_node_id", JString "PVT_1")]) ].

(** A payload with no project at all. *)
Definition no_project : ParsedBody :=
  BodyObject [ ("action", JString "created");
               ("projects_v2_item", JObject [("content_node_id", JString "I_issue")]) ].

(** The configuration with no target project. *)
Definition no_target : Config := {|
  GITHUB_WEBHOOK_SECRET := Some "s3cret";
  GITHUB_TOKEN := Some "ghp_token";
  PROJECT_NODE_ID := None
|}.

(** The configuration with no secret. *)
Definition no_secret : Config := {|
  GITHUB_WEBHOOK_SECRET := None;
  GITHUB_TOKEN := Some "ghp_token";
  PROJECT_NODE_ID := Some "PVT_1"
|}.

(** The address of a pull request, with a fragment after the number. *)
Definition pull_url : string := "https://github.com/octo/demo/pull/7/files".

(** The small platform with a GraphQL endpoint that gives one answer. *)
Definition answering (answer : JsValue) : Platform := {|
  World := Demo.outside;
  hmac_sha256_hex := Demo.hmac;
  JSON_stringify := Demo.stringify;
  number_toString := fun _ => "0";
  axios_post := fun _ _ _ w => (Ok answer, w);
  axios_get := Demo.get;
  axios_patch := Demo.patch;
  fs_readFileSync := Demo.readFileSync
|}.

Definition start (answer : JsValue) : State (answering answer) :=
  mkState (Demo.github (JString "Hello") : World (answering answer)) [].

(** An answer with a node and an empty list of errors. *)
Definition empty_errors : JsValue :=
  Some (JObject [ ("data", JObject [("node",
                     JObject [("url", JString Demo.issue_7); ("body", JString "Hello")])]);
                  ("errors", JArray []) ]).

(** An answer with no [data] member. *)
Definition no_data : JsValue := Some (JObject [("message", JString "Bad credentials")]).

(** An answer whose node has a number as [url]. *)
Definition number_url : JsValue :=
  Some (JObject [("data", JObject [("node",
          JObject [("url", JNumber 7%float); ("body", JString "Hello")])])]).

(** An answer whose node has, as [url], an object that cannot be converted
    to text. *)
Definition odd_url : JsValue :=
  Some (JObject [("data", JObject [("node",
          JObject [("url", odd); ("body", JString "Hello")])])]).

(** The start of a run against a GitHub whose issue 7 has a [null] body. *)
Definition null_body : State Demo.platform := Demo.start (Demo.github JNull).

End Cases.
(** ** Strings: what [includes] and [split] compute *)

Module StrFacts.
Import Str.

Lemma startsWith_spec (p s : string) :
  startsWith p s = true <-> exists rest, s = p +:+ rest.
Proof.
  revert s; induction p as [|a p IH]; intros s; simpl.
  - split; [intros _; now exists s | reflexivity].
  - destruct s as [|b s].
    + split; [discriminate | intros [rest H]; discriminate].
    + destruct (Ascii.eqb_spec a b) as [->|Hne].
      * rewrite IH. split; intros [rest H]; exists rest.
        -- now rewrite H.
        -- now injection H.
      * split; [discriminate | intros [rest H]; injection H; congruence].
Qed.

(** [includes] is the substring test. *)
Lemma includes_spec (s t : string) :
  includes s t = true <-> substring t s.
Proof.
  unfold substring. induction s as [|c s IH]; simpl.
  - destruct (startsWith t EmptyString) eqn:Hp.
    + apply startsWith_spec in Hp as [rest Hrest].
      split; [intros _; now exists EmptyString, rest | reflexivity].
    + split; [discriminate|]. intros [before [after H]].
      destruct before; [|discriminate]. simpl in H.
      assert (startsWith t EmptyString = true) by (apply startsWith_spec; eauto).
      congruence.
  - destruct (startsWith t (String c s)) eqn:Hp.
    + apply startsWith_spec in Hp as [rest Hrest].
      split; [intros _; now exists EmptyString, rest | reflexivity].
    + rewrite IH. split.
      * intros [before [after H]]. exists (String c before), after. simpl. now rewrite H.
      * intros [before [after H]]. destruct before as [|b before].
        -- simpl in H.
           assert (startsWith t (String c s) = true) by (apply startsWith_spec; eauto).
           congruence.
        -- simpl in H. injection H as _ H. eauto.
Qed.

(** Every string includes the empty string. *)
Lemma includes_empty (s : string) : includes s EmptyString = true.
Proof. destruct s; reflexivity. Qed.

Lemma split_free (sep : ascii) (s : string) :
  free_of sep s = true -> split sep s = [s].
Proof.
  induction s as [|c s IH]; simpl; [reflexivity|].
  intros [Hc Hs]%andb_prop. destruct (Ascii.eqb c sep); [discriminate|].
  now rewrite (IH Hs).
Qed.

(** Splitting after a piece that has no separator in it. *)
Lemma split_piece (sep : ascii) (piece rest : string) :
  free_of sep piece = true ->
  split sep (piece +:+ String sep rest) = piece :: split sep rest.
Proof.
  induction piece as [|c piece IH]; simpl.
  - intros _. now rewrite Ascii.eqb_refl.
  - intros [Hc Hs]%andb_prop. destruct (Ascii.eqb c sep); [discriminate|].
    now rewrite (IH Hs).
Qed.

(** [split] never returns the empty array: element 0 is there. *)
Lemma split_first (sep : ascii) (s : string) : is_Some (split sep s !! 0).
Proof.
  destruct s as [|c s]; simpl; [eauto|].
  destruct (Ascii.eqb c sep); [eauto|]. destruct (split sep s); eauto.
Qed.

(** The first line of a text that is empty or starts with a line feed is
    the empty string. *)
Lemma first_line_empty (content : string) :
  content = EmptyString \/ (exists rest, content = String newline rest) ->
  split newline content !! 0 = Some EmptyString.
Proof. intros [->|[rest ->]]; reflexivity. Qed.

End StrFacts.

(** ** Running computations *)

Section Run.
Context {P : Platform}.

Lemma bind_ok {A B} (m : M P A) (f : A -> M P B) st a st' :
  m st = (Ok a, st') -> (m ≫= f) st = f a st'.
Proof. intros H. unfold mbind, M_bind. now rewrite H. Qed.

Lemma try_ok {A} (m : M P A) h st a st' :
  m st = (Ok a, st') -> try_catch m h st = (Ok a, st').
Proof. intros H. unfold try_catch. now rewrite H. Qed.

Lemma try_throw {A} (m : M P A) h st e st' :
  m st = (Throw e, st') -> try_catch m h st = h e st'.
Proof. intros H. unfold try_catch. now rewrite H. Qed.

End Run.

(** Unfolds the sequencing of a computation applied to a state. *)
Ltac run :=
  unfold mbind, M_bind, mret, M_ret, lift, try_catch, call,
    console_log, console_error, emit in *; simpl in *.

(** ** The signature check *)

Section Signature.
Variable P : Platform.
Variable cfg : Config.
Variable secret : string.
Hypothesis configured : GITHUB_WEBHOOK_SECRET cfg = Some secret.

Lemma verifySignature_run (req : Request) (st : State P) :
  verifySignature P cfg req st =
  (Ok (match headers req !! X_HUB_SIGNATURE_256 with
       | Some s => String.eqb s (expected_signature P secret req)
       | None => false
       end), st).
Proof. unfold verifySignature. rewrite configured. reflexivity. Qed.

Lemma verifySignature_true (req : Request) (st : State P) :
  headers req !! X_HUB_SIGNATURE_256 = Some (expected_signature P secret req) ->
  verifySignature P cfg req st = (Ok true, st).
Proof. intros H. rewrite verifySignature_run, H. now rewrite String.eqb_refl. Qed.

Lemma verifySignature_false (req : Request) (st : State P) :
  headers req !! X_HUB_SIGNATURE_256 <> Some (expected_signature P secret req) ->
  verifySignature P cfg req st = (Ok false, st).
Proof.
  intros H. rewrite verifySignature_run.
  destruct (headers req !! X_HUB_SIGNATURE_256) as [s|]; [|reflexivity].
  destruct (String.eqb_spec s (expected_signature P secret req)); congruence.
Qed.

Lemma webhook_rejects (req : Request) (st : State P) :
  headers req !! X_HUB_SIGNATURE_256 <> Some (expected_signature P secret req) ->
  webhook P cfg req st =
  (Ok {| status := 403; sent := "Signature mismatch!" |},
   mkState (world st) (trace st ++ [ConsoleLog SignatureMismatch])).
Proof.
  intros H. unfold webhook.
  rewrite (bind_ok _ _ _ _ _ (verifySignature_false req st H)). reflexivity.
Qed.

End Signature.

(** C5: with the secret configured, [verifySignature] returns, without any
    effect, [true] exactly when the [x-hub-signature-256] header is the
    string [sha256=] followed by the hex HMAC-SHA256, under the secret, of
    [JSON.stringify] of the parsed body. *)
Theorem verifySignature_iff (P : Platform) (cfg : Config) (secret : string)
    (req : Request) (st : State P) :
  GITHUB_WEBHOOK_SECRET cfg = Some secret ->
  exists b, verifySignature P cfg req st = (Ok b, st) /\
    (b = true <->
     headers req !! X_HUB_SIGNATURE_256 = Some (expected_signature P secret req)).
Proof.
  intros Hsecret. eexists. split; [apply (verifySignature_run P cfg secret Hsecret)|].
  destruct (headers req !! X_HUB_SIGNATURE_256) as [s|]; [|split; discriminate].
  rewrite String.eqb_eq. split; congruence.
Qed.

Lemma verifySignature_iff_witness :
  GITHUB_WEBHOOK_SECRET Demo.config = Some "s3cret" /\
  exists b,
    verifySignature Demo.platform Demo.config (Demo.signed Demo.created) Demo.hello
    = (Ok b, Demo.hello) /\
    (b = true <->
     headers (Demo.signed Demo.created) !! X_HUB_SIGNATURE_256
     = Some (expected_signature Demo.platform "s3cret" (Demo.signed Demo.created))).
Proof.
  split; [reflexivity|].
  apply (verifySignature_iff Demo.platform Demo.config "s3cret"). reflexivity.
Defined.

(** C1: with the secret configured, a request whose [x-hub-signature-256]
    header is not [sha256=] followed by the hex HMAC-SHA256 of the
    serialized body is answered 403, and the handler makes no call to the
    GitHub API: it only writes the mismatch line. *)
Theorem webhook_signature_mismatch (P : Platform) (cfg : Config) (secret : string)
    (req : Request) (st : State P) :
  GITHUB_WEBHOOK_SECRET cfg = Some secret ->
  headers req !! X_HUB_SIGNATURE_256 <> Some (expected_signature P secret req) ->
  exists resp st',
    webhook P cfg req st = (Ok resp, st') /\
    status resp = 403 /\
    trace st' = trace st ++ [ConsoleLog SignatureMismatch] /\
    no_api_call st st'.
Proof.
  intros Hsecret Hne. do 2 eexists.
  split; [apply (webhook_rejects P cfg secret Hsecret req st Hne)|].
  repeat split; simpl. now exists [ConsoleLog SignatureMismatch].
Qed.

Lemma webhook_signature_mismatch_witness :
  GITHUB_WEBHOOK_SECRET Demo.config = Some "s3cret" /\
  headers (Demo.forged Demo.created) !! X_HUB_SIGNATURE_256
  <> Some (expected_signature Demo.platform "s3cret" (Demo.forged Demo.created)) /\
  exists resp st',
    webhook Demo.platform Demo.config (Demo.forged Demo.created) Demo.hello = (Ok resp, st') /\
    status resp = 403 /\
    trace st' = trace Demo.hello ++ [ConsoleLog SignatureMismatch] /\
    no_api_call Demo.hello st'.
Proof.
  assert (Hne : headers (Demo.forged Demo.created) !! X_HUB_SIGNATURE_256
                <> Some (expected_signature Demo.platform "s3cret" (Demo.forged Demo.created)))
    by (vm_compute; discriminate).
  split; [reflexivity|]. split; [exact Hne|].
  apply (webhook_signature_mismatch Demo.platform Demo.config "s3cret");
    [reflexivity | exact Hne].
Defined.

(** C10: with the secret configured, a request that has no
    [x-hub-signature-256] header fails [verifySignature], is answered 403,
    and the handler makes no call to the GitHub API. *)
Theorem webhook_missing_header (P : Platform) (cfg : Config) (secret : string)
    (req : Request) (st : State P) :
  GITHUB_WEBHOOK_SECRET cfg = Some secret ->
  headers req !! X_HUB_SIGNATURE_256 = None ->
  verifySignature P cfg req st = (Ok false, st) /\
  exists resp st',
    webhook P cfg req st = (Ok resp, st') /\
    status resp = 403 /\
    no_api_call st st'.
Proof.
  intros Hsecret Hnone.
  assert (Hne : headers req !! X_HUB_SIGNATURE_256
                <> Some (expected_signature P secret req)) by (rewrite Hnone; discriminate).
  split; [apply (verifySignature_false P cfg secret Hsecret req st Hne)|].
  do 2 eexists. split; [apply (webhook_rejects P cfg secret Hsecret req st Hne)|].
  repeat split; simpl. now exists [ConsoleLog SignatureMismatch].
Qed.

Lemma webhook_missing_header_witness :
  GITHUB_WEBHOOK_SECRET Demo.config = Some "s3cret" /\
  headers (Demo.unsigned Demo.created) !! X_HUB_SIGNATURE_256 = None /\
  verifySignature Demo.platform Demo.config (Demo.unsigned Demo.created) Demo.hello
  = (Ok false, Demo.hello) /\
  exists resp st',
    webhook Demo.platform Demo.config (Demo.unsigned Demo.created) Demo.hello = (Ok resp, st') /\
    status resp = 403 /\
    no_api_call Demo.hello st'.
Proof.
  split; [reflexivity|]. split; [reflexivity|].
  apply (webhook_missing_header Demo.platform Demo.config "s3cret"); reflexivity.
Defined.

(** ** The event filter *)

(** What the payload of an event holds as action and identifiers, a string,
    converts to itself in a template literal, and an absent value to
    [undefined]; so do numbers, booleans and [null] to their text. *)
Lemma template_text (number_toString : float -> string) :
  (forall s, Js.template number_toString (Some (JString s)) = Ok s) /\
  Js.template number_toString None = Ok "undefined" /\
  Js.template number_toString (Some JNull) = Ok "null" /\
  (forall x, Js.template number_toString (Some (JNumber x)) = Ok (number_toString x)) /\
  (forall b, exists text, Js.template number_toString (Some (JBool b)) = Ok text).
Proof.
  repeat split; try reflexivity. intros b. destruct b; simpl; eauto.
Qed.

Lemma is_string_true (v : JsValue) (s : string) :
  Js.is_string v s = true <-> v = Some (JString s).
Proof.
  destruct v as [[| | |t| |]|]; simpl; try (split; [discriminate|congruence]).
  rewrite String.eqb_eq. split; congruence.
Qed.

Lemma is_string_false (v : JsValue) (s : string) :
  Js.is_string v s = false <-> v <> Some (JString s).
Proof.
  rewrite <- is_string_true. destruct (Js.is_string v s); split; congruence.
Qed.

(** Reading a member of the item of a parsed body never throws. *)
Lemma item_field_ok (b : ParsedBody) (name : string) :
  exists v, item_field b name = Ok v.
Proof.
  unfold item_field. destruct b as [members|items]; simpl; [|eauto].
  destruct (Js.member "projects_v2_item" members) as [[| | | | |]|]; simpl; eauto.
Qed.

Lemma body_action_ok (b : ParsedBody) : exists v, Js.get (Some (b : Json)) "action" = Ok v.
Proof. destruct b; simpl; eauto. Qed.

Section Filter.
Variable P : Platform.
Variable cfg : Config.
Variables secret target : string.
Hypothesis secret_configured : GITHUB_WEBHOOK_SECRET cfg = Some secret.
Hypothesis target_configured : PROJECT_NODE_ID cfg = Some target.

Variable req : Request.
Hypothesis verified :
  headers req !! X_HUB_SIGNATURE_256 = Some (expected_signature P secret req).



(** A verified event of the target project whose action cannot be converted
    to text is not answered: the handler throws where it builds the line
    for the log. *)
Lemma webhook_action_not_printed (st : State P) (action : JsValue) (e : JsError) :
  item_field (body req) "project_node_id" = Ok (Some (JString target)) ->
  Js.get (Some (body req : Json)) "action" = Ok action ->
  action <> Some (JString "created") ->
  Js.template (number_toString P) action = Throw e ->
  webhook P cfg req st = (Throw e, st).
Proof.
  intros Hfield Haction Hne Hthrow. unfold webhook.
  rewrite (bind_ok _ _ _ _ _ (verifySignature_true P cfg secret secret_configured req st verified)).
  cbn [negb]. unfold mbind at 1, M_bind at 1, lift at 1. rewrite Hfield.
  rewrite target_configured. cbn [Js.strict_eq_env Js.is_string].
  rewrite String.eqb_refl. cbn [negb].
  destruct (item_field_ok (body req) "content_node_id") as [id Hid].
  unfold mbind at 1, M_bind at 1, lift at 1. rewrite Hid.
  unfold mbind at 1, M_bind at 1, lift at 1. rewrite Haction.
  apply is_string_false in Hne. rewrite Hne. cbn [negb].
  unfold mbind at 1, M_bind at 1, lift at 1. rewrite Hthrow. reflexivity.
Qed.

End Filter.

Lemma no_api_call_line {P} (st : State P) (line : LogLine) :
  no_api_call st (mkState (world st) (trace st ++ [ConsoleLog line])).
Proof. split; [reflexivity|]. now exists [ConsoleLog line]. Qed.



(** The limit of C6: an action that is an object with an own [toString]
    member cannot be printed; the handler throws at the line for the log
    and sends no response. *)
Example webhook_action_object :
  webhook Demo.platform Demo.config (Demo.signed Cases.odd_action) Demo.hello
  = (Throw (TypeError "Cannot convert object to primitive value"), Demo.hello).
Proof. reflexivity. Qed.

(** ** The issue resolver *)

Lemma get_truthy (v : JsValue) (name : string) :
  Js.truthy v = true -> exists x, Js.get v name = Ok x.
Proof. destruct v as [[| | | | |]|]; simpl; try discriminate; eauto. Qed.

Section Resolver.
Variable P : Platform.
Variable cfg : Config.
Variable contentNodeId : JsValue.
Variable st : State P.

Lemma getIssueDetails_total :
  exists details st', getIssueDetails P cfg contentNodeId st = (Ok details, st').
Proof.
  unfold getIssueDetails. run.
  destruct (axios_post P _ _ _ (world st)) as [[data|e] w]; [|eauto].
  destruct (Js.get data "errors") as [errors|e]; [|eauto].
  destruct (Js.truthy errors); [eauto|].
  destruct (Js.get data "data") as [data'|e]; [|eauto].
  destruct (Js.get data' "node") as [node|e]; [|eauto].
  destruct (Js.truthy node) eqn:Hnode; [|eauto].
  destruct (get_truthy node "url" Hnode) as [u ->].
  destruct (get_truthy node "body" Hnode) as [b ->]. eauto.
Qed.




Lemma getIssueDetails_node (data errors data' : JsValue) (w : World P)
    (members : list (string * Json)) :
  snd (graphql_call P cfg contentNodeId) (world st) = (Ok data, w) ->
  Js.get data "errors" = Ok errors -> Js.truthy errors = false ->
  Js.get data "data" = Ok data' ->
  Js.get data' "node" = Ok (Some (JObject members)) ->
  getIssueDetails P cfg contentNodeId st =
  (Ok (Some {| url := Js.member "url" members; issue_body := Js.member "body" members |}),
   mkState w (trace st ++ [fst (graphql_call P cfg contentNodeId)])).
Proof.
  unfold graphql_call, getIssueDetails. run. intros -> -> -> -> ->. reflexivity.
Qed.

End Resolver.



(** ** The issue updater *)

Section Updater.
Variable P : Platform.
Variable cfg : Config.

Lemma readChecklist_read (st : State P) (content : string) (w : World P) :
  fs_readFileSync P CHECKLIST_FILE (world st) = (Ok content, w) ->
  readChecklist P st =
  (Ok (Some {| firstLine := Str.split Str.newline content !! 0; fullContent := content |}),
   mkState w (trace st ++ [ReadFileSync CHECKLIST_FILE])).
Proof. unfold readChecklist. run. now intros ->. Qed.

Lemma readChecklist_failed (st : State P) (e : JsError) (w : World P) :
  fs_readFileSync P CHECKLIST_FILE (world st) = (Throw e, w) ->
  readChecklist P st =
  (Ok None,
   mkState w (trace st ++ [ReadFileSync CHECKLIST_FILE]
                       ++ [ConsoleError (ErrorReadingChecklistFile e)])).
Proof. unfold readChecklist. run. intros ->. simpl. now rewrite <- List.app_assoc. Qed.

(** [readChecklist] returns, having made no API call. *)
Lemma readChecklist_total (st : State P) :
  exists c st' events,
    readChecklist P st = (Ok c, st') /\
    trace st' = trace st ++ events /\
    Forall (fun e => is_api_call e = false) events.
Proof.
  destruct (fs_readFileSync P CHECKLIST_FILE (world st)) as [[content|e] w] eqn:Hread.
  - rewrite (readChecklist_read st content w Hread). do 3 eexists.
    split; [reflexivity|]. split; [reflexivity|]. repeat constructor.
  - rewrite (readChecklist_failed st e w Hread). do 3 eexists.
    split; [reflexivity|]. split; [reflexivity|]. repeat constructor.
Qed.

Lemma aimed_at_quiet (address : string) (e : Event) :
  is_api_call e = false -> aimed_at address e.
Proof. destruct e; simpl; (discriminate || trivial). Qed.

(** What the [try] block of [updateIssueBody] does, whatever the platform
    answers: it writes the address, sends the GET there, and after that
    makes no API call but, at most, a PATCH at the same address. *)
Lemma updateIssueBody_try_events (parts : list string) (st : State P) :
  exists r st' events,
    updateIssueBody_try P cfg parts st = (r, st') /\
    trace st' = trace st ++ ConsoleLog (UpdatingIssueAt (rest_url parts))
                         :: AxiosGet (rest_url parts) (rest_headers cfg) :: events /\
    Forall (aimed_at (rest_url parts)) events.
Proof.
  unfold updateIssueBody_try.
  set (address := rest_url parts).
  unfold mbind at 1, M_bind at 1, console_log at 1, emit at 1.
  unfold mbind at 1, M_bind at 1, call at 1. cbn [world trace].
  destruct (axios_get P address (rest_headers cfg) (world st)) as [[data|e] w1].
  2:{ do 3 eexists. split; [reflexivity|]. cbn [trace].
      rewrite <- List.app_assoc. split; [reflexivity|]. constructor. }
  unfold mbind at 1, M_bind at 1, lift at 1.
  destruct (Js.get data "body") as [b|e].
  2:{ do 3 eexists. split; [reflexivity|]. cbn [trace].
      rewrite <- List.app_assoc. split; [reflexivity|]. constructor. }
  set (st1 := mkState w1 _).
  destruct (readChecklist_total st1) as (c & st2 & events & Hread & Htrace & Hquiet).
  unfold mbind at 1, M_bind at 1. rewrite Hread.
  assert (Hfile : Forall (aimed_at address) events)
    by (eapply Forall_impl; [exact Hquiet | intros e; apply aimed_at_quiet]).
  assert (Hst2 : trace st2 = trace st ++ ConsoleLog (UpdatingIssueAt address)
                   :: AxiosGet address (rest_headers cfg) :: events).
  { rewrite Htrace. subst st1. cbn [trace]. now rewrite <- !List.app_assoc. }
  assert (Hdone : forall line,
    exists r st' events0,
      console_log (P:=P) line st2 = (r, st') /\
      trace st' = trace st ++ ConsoleLog (UpdatingIssueAt address)
                    :: AxiosGet address (rest_headers cfg) :: events0 /\
      Forall (aimed_at address) events0).
  { intros line. exists (Ok ()), (mkState (world st2) (trace st2 ++ [ConsoleLog line])),
      (events ++ [ConsoleLog line]).
    split; [reflexivity|]. cbn [trace]. rewrite Hst2. split.
    - now rewrite <- List.app_assoc.
    - apply Forall_app. split; [exact Hfile | repeat constructor]. }
  destruct c as [c|]; [|apply Hdone].
  unfold mbind at 1, M_bind at 1, lift at 1.
  destruct (Js.includes (Js.or_else b (JString EmptyString)) (firstLine c)) as [found|e].
  2:{ do 3 eexists. split; [reflexivity|]. split; [exact Hst2 | exact Hfile]. }
  destruct found; cbn [negb]; [apply Hdone|].
  unfold mbind at 1, M_bind at 1, lift at 1.
  destruct (Js.toString (number_toString P) (Js.or_else b (JString EmptyString)))
    as [existing|e].
  2:{ do 3 eexists. split; [reflexivity|]. split; [exact Hst2 | exact Hfile]. }
  unfold mbind at 1, M_bind at 1, call at 1.
  destruct (axios_patch P address _ (rest_headers cfg) (world st2)) as [[answer|e] w3].
  - do 3 eexists. split; [reflexivity|]. cbn [trace]. rewrite Hst2. split.
    + rewrite <- !List.app_assoc. cbn [app]. reflexivity.
    + apply Forall_app. split; [exact Hfile|]. repeat constructor.
  - do 3 eexists. split; [reflexivity|]. cbn [trace]. rewrite Hst2. split.
    + rewrite <- !List.app_assoc. cbn [app]. reflexivity.
    + apply Forall_app. split; [exact Hfile|]. repeat constructor.
Qed.

(** On a string, [updateIssueBody] returns: what its [try] block throws is
    written to the error stream. *)
Lemma updateIssueBody_events (issueUrl : string) (st : State P) :
  exists st' events,
    updateIssueBody P cfg (Some (JString issueUrl)) st = (Ok (), st') /\
    trace st' = trace st
                ++ ConsoleLog (UpdatingIssueAt (rest_url (Str.split Str.slash issueUrl)))
                :: AxiosGet (rest_url (Str.split Str.slash issueUrl)) (rest_headers cfg)
                :: events /\
    Forall (aimed_at (rest_url (Str.split Str.slash issueUrl))) events.
Proof.
  unfold updateIssueBody. unfold mbind at 1, M_bind at 1, lift at 1. cbn [Js.split].
  destruct (updateIssueBody_try_events (Str.split Str.slash issueUrl) st)
    as ([[]|e] & st' & events & Hrun & Htrace & Haimed).
  - rewrite (try_ok _ _ _ _ _ Hrun). eauto.
  - rewrite (try_throw _ _ _ _ _ Hrun).
    exists (mkState (world st') (trace st' ++ [ConsoleError (ErrorUpdatingIssue (error_detail e))])),
      (events ++ [ConsoleError (ErrorUpdatingIssue (error_detail e))]).
    split; [reflexivity|]. cbn [trace]. rewrite Htrace. split.
    + now rewrite <- List.app_assoc.
    + apply Forall_app. split; [exact Haimed | repeat constructor].
Qed.

End Updater.

Section UpdaterRuns.
Variable P : Platform.
Variable cfg : Config.
Variable issueUrl : string.
Variable st : State P.

(** The issue is read, and its body, with a falsy one replaced by the empty
    string, is the string [existing]; the checklist is read, and its first
    line is [line]. *)
Variables (issue b : JsValue) (existing content line : string) (w1 w2 : World P).
Hypothesis issue_read :
  axios_get P (rest_url (Str.split Str.slash issueUrl)) (rest_headers cfg) (world st)
  = (Ok issue, w1).
Hypothesis issue_body_read : Js.get issue "body" = Ok b.
Hypothesis body_is : Js.or_else b (JString EmptyString) = JString existing.
Hypothesis checklist_read : fs_readFileSync P CHECKLIST_FILE w1 = (Ok content, w2).
Hypothesis first_line_is : Str.split Str.newline content !! 0 = Some line.

Lemma updateIssueBody_run_present :
  Str.includes existing line = true ->
  updateIssueBody P cfg (Some (JString issueUrl)) st =
  (Ok (),
   mkState w2
     (trace st ++ [ ConsoleLog (UpdatingIssueAt (rest_url (Str.split Str.slash issueUrl)));
                    AxiosGet (rest_url (Str.split Str.slash issueUrl)) (rest_headers cfg);
                    ReadFileSync CHECKLIST_FILE;
                    ConsoleLog ChecklistAlreadyExists ])).
Proof.
  intros Hfound. unfold updateIssueBody, updateIssueBody_try, readChecklist. run.
  rewrite issue_read. simpl. rewrite issue_body_read, body_is. simpl.
  rewrite checklist_read. simpl. rewrite first_line_is. simpl. rewrite Hfound. simpl.
  now rewrite <- !List.app_assoc.
Qed.

Lemma updateIssueBody_run_absent :
  Str.includes existing line = false ->
  exists st' last,
    updateIssueBody P cfg (Some (JString issueUrl)) st = (Ok (), st') /\
    trace st' =
    trace st ++ [ ConsoleLog (UpdatingIssueAt (rest_url (Str.split Str.slash issueUrl)));
                  AxiosGet (rest_url (Str.split Str.slash issueUrl)) (rest_headers cfg);
                  ReadFileSync CHECKLIST_FILE;
                  append_patch cfg (rest_url (Str.split Str.slash issueUrl)) existing content;
                  last ] /\
    is_api_call last = false.
Proof.
  intros Habsent. unfold updateIssueBody, updateIssueBody_try, readChecklist, append_patch. run.
  rewrite issue_read. simpl. rewrite issue_body_read, body_is. simpl.
  rewrite checklist_read. simpl. rewrite first_line_is. simpl. rewrite Habsent. simpl.
  destruct (axios_patch P _ _ _ w2) as [[answer|e] w3]; simpl;
    do 2 eexists; (split; [reflexivity|]); simpl;
    rewrite <- !List.app_assoc; simpl; split; reflexivity.
Qed.

End UpdaterRuns.

Lemma no_patch_events {P} (st st' : State P) (events : list Event) :
  trace st' = trace st ++ events -> patches events = [] -> no_patch st st'.
Proof. intros Htrace Hnone. now exists events. Qed.

(** C2: when the GET of the issue succeeds and the body it returns (a falsy
    one counting as the empty string) is a string that contains the first
    line of the checklist file, [updateIssueBody] returns without sending
    a PATCH: the world is the one the two reads left. *)
Theorem updateIssueBody_idempotent (P : Platform) (cfg : Config) (issueUrl : string)
    (st : State P) (issue b : JsValue) (existing content line : string)
    (w1 w2 : World P) :
  axios_get P (rest_url (Str.split Str.slash issueUrl)) (rest_headers cfg) (world st)
  = (Ok issue, w1) ->
  Js.get issue "body" = Ok b ->
  Js.or_else b (JString EmptyString) = JString existing ->
  fs_readFileSync P CHECKLIST_FILE w1 = (Ok content, w2) ->
  Str.split Str.newline content !! 0 = Some line ->
  substring line existing ->
  exists st',
    updateIssueBody P cfg (Some (JString issueUrl)) st = (Ok (), st') /\
    no_patch st st' /\
    world st' = w2.
Proof.
  intros Hget Hbody Hexisting Hread Hline Hsub.
  apply StrFacts.includes_spec in Hsub.
  eexists. split.
  - apply (updateIssueBody_run_present P cfg issueUrl st issue b existing content line
             w1 w2 Hget Hbody Hexisting Hread Hline Hsub).
  - split; [|reflexivity]. eapply no_patch_events; [reflexivity|reflexivity].
Qed.

Lemma updateIssueBody_idempotent_witness :
  axios_get Demo.platform (rest_url (Str.split Str.slash Demo.issue_7))
    (rest_headers Demo.config) (world Demo.done)
  = (Ok (Some (JObject [("body", JString Demo.appended)])), world Demo.done) /\
  fs_readFileSync Demo.platform CHECKLIST_FILE (world Demo.done)
  = (Ok Demo.template, world Demo.done) /\
  Str.split Str.newline Demo.template !! 0 = Some "## Checklist" /\
  substring "## Checklist" Demo.appended /\
  exists st',
    updateIssueBody Demo.platform Demo.config (Some (JString Demo.issue_7)) Demo.done
    = (Ok (), st') /\
    no_patch Demo.done st' /\
    world st' = world Demo.done.
Proof.
  assert (Hsub : substring "## Checklist" Demo.appended).
  { exists ("Hello" +:+ Demo.nl +:+ Demo.nl), (Demo.nl +:+ "- [ ] Step 1"). reflexivity. }
  split; [reflexivity|]. split; [reflexivity|]. split; [reflexivity|]. split; [exact Hsub|].
  apply (updateIssueBody_idempotent Demo.platform Demo.config Demo.issue_7 Demo.done
           (Some (JObject [("body", JString Demo.appended)])) (Some (JString Demo.appended))
           Demo.appended Demo.template "## Checklist" (world Demo.done) (world Demo.done));
    (reflexivity || exact Hsub).
Defined.

(** C9: when the first line of the checklist file is the empty string,
    [updateIssueBody] sends no PATCH, whatever string (or falsy value) the
    GET returns as the body of the issue. *)
Theorem updateIssueBody_empty_first_line (P : Platform) (cfg : Config) (issueUrl : string)
    (st : State P) (issue b : JsValue) (existing content : string) (w1 w2 : World P) :
  axios_get P (rest_url (Str.split Str.slash issueUrl)) (rest_headers cfg) (world st)
  = (Ok issue, w1) ->
  Js.get issue "body" = Ok b ->
  Js.or_else b (JString EmptyString) = JString existing ->
  fs_readFileSync P CHECKLIST_FILE w1 = (Ok content, w2) ->
  Str.split Str.newline content !! 0 = Some EmptyString ->
  exists st',
    updateIssueBody P cfg (Some (JString issueUrl)) st = (Ok (), st') /\
    no_patch st st' /\
    world st' = w2.
Proof.
  intros Hget Hbody Hexisting Hread Hline.
  eexists. split.
  - apply (updateIssueBody_run_present P cfg issueUrl st issue b existing content EmptyString
             w1 w2 Hget Hbody Hexisting Hread Hline (StrFacts.includes_empty existing)).
  - split; [|reflexivity]. eapply no_patch_events; [reflexivity|reflexivity].
Qed.

Lemma updateIssueBody_empty_first_line_witness :
  axios_get Demo.platform (rest_url (Str.split Str.slash Demo.issue_7))
    (rest_headers Demo.config) (world Demo.blank)
  = (Ok (Some (JObject [("body", JNull)])), world Demo.blank) /\
  Js.or_else (Some JNull) (JString EmptyString) = JString EmptyString /\
  fs_readFileSync Demo.platform CHECKLIST_FILE (world Demo.blank)
  = (Ok EmptyString, world Demo.blank) /\
  Str.split Str.newline EmptyString !! 0 = Some EmptyString /\
  exists st',
    updateIssueBody Demo.platform Demo.config (Some (JString Demo.issue_7)) Demo.blank
    = (Ok (), st') /\
    no_patch Demo.blank st' /\
    world st' = world Demo.blank.
Proof.
  split; [reflexivity|]. split; [reflexivity|]. split; [reflexivity|].
  split; [apply StrFacts.first_line_empty; now left|].
  apply (updateIssueBody_empty_first_line Demo.platform Demo.config Demo.issue_7 Demo.blank
           (Some (JObject [("body", JNull)])) (Some JNull)
           EmptyString EmptyString (world Demo.blank) (world Demo.blank));
    reflexivity.
Defined.

(** ** The handler, past the filter *)

Lemma is_patch_api_call (e : Event) : is_api_call e = false -> is_patch e = false.
Proof. destruct e; simpl; congruence. Qed.

Section Proceed.
Variable P : Platform.
Variable cfg : Config.
Variables secret target : string.
Hypothesis secret_configured : GITHUB_WEBHOOK_SECRET cfg = Some secret.
Hypothesis target_configured : PROJECT_NODE_ID cfg = Some target.

Variable req : Request.
Hypothesis verified :
  headers req !! X_HUB_SIGNATURE_256 = Some (expected_signature P secret req).
Hypothesis project_matches :
  item_field (body req) "project_node_id" = Ok (Some (JString target)).
Hypothesis action_created :
  Js.get (Some (body req : Json)) "action" = Ok (Some (JString "created")).

Variable contentNodeId : JsValue.
Hypothesis content_id : item_field (body req) "content_node_id" = Ok contentNodeId.

(** A verified [created] event of the target project is answered once the
    update step returns. *)
Lemma webhook_created (st : State P) :
  webhook P cfg req st =
  match webhook_update P cfg contentNodeId st with
  | (Ok _, st') =>
      (Ok {| status := 200; sent := "Webhook received and processed!" |}, st')
  | (Throw e, st') => (Throw e, st')
  end.
Proof.
  unfold webhook.
  rewrite (bind_ok _ _ _ _ _ (verifySignature_true P cfg secret secret_configured req st verified)).
  cbn [negb]. unfold mbind at 1, M_bind at 1, lift at 1. rewrite project_matches.
  rewrite target_configured. cbn [Js.strict_eq_env Js.is_string].
  rewrite String.eqb_refl. cbn [negb].
  unfold mbind at 1, M_bind at 1, lift at 1. rewrite content_id.
  unfold mbind at 1, M_bind at 1, lift at 1. rewrite action_created.
  cbn [Js.is_string]. rewrite String.eqb_refl. cbn [negb].
  unfold mbind at 1, M_bind at 1.
  destruct (webhook_update P cfg contentNodeId st) as [[[]|e] st']; reflexivity.
Qed.

End Proceed.

Section Append.
Variable P : Platform.
Variable cfg : Config.
Variable contentNodeId : JsValue.
Variable st : State P.
Hypothesis id_given : Js.truthy contentNodeId = true.
Variable found : string.
Hypothesis id_printed : Js.template (number_toString P) contentNodeId = Ok found.

(** The identifier resolves to a node whose [url] is the string
    [issueUrl]. *)
Variables (data errors data' : JsValue) (members : list (string * Json)) (w1 : World P).
Variable issueUrl : string.
Hypothesis resolved :
  snd (graphql_call P cfg contentNodeId) (world st) = (Ok data, w1).
Hypothesis errors_read : Js.get data "errors" = Ok errors.
Hypothesis no_errors : Js.truthy errors = false.
Hypothesis data_read : Js.get data "data" = Ok data'.
Hypothesis node_read : Js.get data' "node" = Ok (Some (JObject members)).
Hypothesis url_read : Js.member "url" members = Some (JString issueUrl).
Hypothesis url_given : issueUrl <> EmptyString.

Variables (issue b : JsValue) (existing content line : string) (w2 w3 : World P).
Hypothesis issue_read :
  axios_get P (rest_url (Str.split Str.slash issueUrl)) (rest_headers cfg) w1
  = (Ok issue, w2).
Hypothesis issue_body_read : Js.get issue "body" = Ok b.
Hypothesis body_is : Js.or_else b (JString EmptyString) = JString existing.
Hypothesis checklist_read : fs_readFileSync P CHECKLIST_FILE w2 = (Ok content, w3).
Hypothesis first_line_is : Str.split Str.newline content !! 0 = Some line.
Hypothesis absent : Str.includes existing line = false.

Lemma webhook_update_appends :
  exists st' events,
    webhook_update P cfg contentNodeId st = (Ok (), st') /\
    trace st' = trace st ++ events /\
    patches events
    = [append_patch cfg (rest_url (Str.split Str.slash issueUrl)) existing content].
Proof.
  unfold webhook_update. rewrite id_given.
  unfold mbind at 1, M_bind at 1, lift at 1. rewrite id_printed.
  unfold mbind at 1, M_bind at 1, console_log at 1, emit at 1.
  set (st0 := mkState (world st) _).
  unfold mbind at 1, M_bind at 1.
  rewrite (getIssueDetails_node P cfg contentNodeId st0 data errors data' w1 members
             resolved errors_read no_errors data_read node_read).
  cbn [url]. rewrite url_read. cbn [Js.truthy].
  destruct (String.eqb_spec issueUrl EmptyString) as [|_]; [contradiction|]. cbn [negb].
  unfold mbind at 1, M_bind at 1, lift at 1. cbn [Js.template Js.toString].
  unfold mbind at 1, M_bind at 1, console_log at 1, emit at 1. cbn [world trace].
  set (st2 := mkState w1 _).
  destruct (updateIssueBody_run_absent P cfg issueUrl st2 issue b existing content line w2 w3
              issue_read issue_body_read body_is checklist_read first_line_is absent)
    as (st' & last & Hrun & Htrace & Hlast).
  rewrite Hrun. do 2 eexists. split; [reflexivity|].
  rewrite Htrace. subst st2 st0. cbn [trace world].
  rewrite <- !List.app_assoc. split; [reflexivity|].
  cbn [app]. unfold patches. cbn [List.filter is_patch append_patch graphql_call fst].
  now rewrite (is_patch_api_call last Hlast).
Qed.

End Append.

Lemma or_else_string (s : string) :
  Js.or_else (Some (JString s)) (JString EmptyString) = JString s.
Proof.
  unfold Js.or_else. simpl. destruct (String.eqb_spec s EmptyString) as [->|]; reflexivity.
Qed.

(** The body the update works on: the string the GET returned, or the
    empty string when it returned [null] or no body. *)
Lemma or_else_existing (b : JsValue) (existing : string) :
  b = Some (JString existing) \/ ((b = Some JNull \/ b = None) /\ existing = EmptyString) ->
  Js.or_else b (JString EmptyString) = JString existing.
Proof.
  intros [->|[[->| ->] ->]]; [apply or_else_string | reflexivity | reflexivity].
Qed.

(** C3: a verified [created] event of the target project, whose content
    identifier (a value that converts to text, as a string does) resolves
    to a node with a [url], is answered 200 and sends exactly one PATCH
    when the body the GET returns, [existing], or the empty string when
    the GET returns [null] or no body, does not contain the first line of
    the checklist file: the PATCH carries that body, two line feeds and
    the whole file.  On body [Hello] and file [## Checklist], line feed,
    [- [ ] Step 1] the PATCH carries [Hello], two line feeds and the
    file; on a [null] body it carries two line feeds and the file. *)
Theorem webhook_appends_checklist (P : Platform) (cfg : Config) (secret target : string)
    (req : Request) (st : State P) (contentNodeId : JsValue) (found : string)
    (data errors data' : JsValue) (members : list (string * Json)) (issueUrl : string)
    (issue b : JsValue) (existing content line : string) (w1 w2 w3 : World P) :
  GITHUB_WEBHOOK_SECRET cfg = Some secret ->
  PROJECT_NODE_ID cfg = Some target ->
  headers req !! X_HUB_SIGNATURE_256 = Some (expected_signature P secret req) ->
  item_field (body req) "project_node_id" = Ok (Some (JString target)) ->
  Js.get (Some (body req : Json)) "action" = Ok (Some (JString "created")) ->
  item_field (body req) "content_node_id" = Ok contentNodeId ->
  Js.truthy contentNodeId = true ->
  Js.template (number_toString P) contentNodeId = Ok found ->
  snd (graphql_call P cfg contentNodeId) (world st) = (Ok data, w1) ->
  Js.get data "errors" = Ok errors ->
  Js.truthy errors = false ->
  Js.get data "data" = Ok data' ->
  Js.get data' "node" = Ok (Some (JObject members)) ->
  Js.member "url" members = Some (JString issueUrl) ->
  issueUrl <> EmptyString ->
  axios_get P (rest_url (Str.split Str.slash issueUrl)) (rest_headers cfg) w1
  = (Ok issue, w2) ->
  Js.get issue "body" = Ok b ->
  b = Some (JString existing) \/ ((b = Some JNull \/ b = None) /\ existing = EmptyString) ->
  fs_readFileSync P CHECKLIST_FILE w2 = (Ok content, w3) ->
  Str.split Str.newline content !! 0 = Some line ->
  ~ substring line existing ->
  exists st' events,
    webhook P cfg req st
    = (Ok {| status := 200; sent := "Webhook received and processed!" |}, st') /\
    trace st' = trace st ++ events /\
    patches events
    = [AxiosPatch (rest_url (Str.split Str.slash issueUrl))
         (JObject [("body", JString (existing +:+ Str.blank_line +:+ content))])
         (rest_headers cfg)].
Proof.
  intros Hsecret Htarget Hverified Hproject Haction Hid Hgiven Hfound Hpost Herrors Hnone
    Hdata Hnode Hurl Hnonempty Hget Hbody Hexisting Hread Hline Habsent.
  assert (Hincludes : Str.includes existing line = false).
  { destruct (Str.includes existing line) eqn:Hin; [|reflexivity].
    apply StrFacts.includes_spec in Hin. contradiction. }
  rewrite (webhook_created P cfg secret target Hsecret Htarget req Hverified Hproject
             Haction contentNodeId Hid st).
  destruct (webhook_update_appends P cfg contentNodeId st Hgiven found Hfound
              data errors data' members
              w1 issueUrl Hpost Herrors Hnone Hdata Hnode Hurl Hnonempty issue b existing
              content line w2 w3 Hget Hbody (or_else_existing b existing Hexisting)
              Hread Hline Hincludes)
    as (st' & events & Hrun & Htrace & Hpatches).
  rewrite Hrun. exists st', events. split; [reflexivity|]. split; [exact Htrace|].
  exact Hpatches.
Qed.

Lemma webhook_appends_checklist_witness :
  (headers (Demo.signed Demo.created) !! X_HUB_SIGNATURE_256
   = Some (expected_signature Demo.platform "s3cret" (Demo.signed Demo.created)) /\
   item_field Demo.created "content_node_id" = Ok (Some (JString "I_issue")) /\
   Js.template (number_toString Demo.platform) (Some (JString "I_issue")) = Ok "I_issue" /\
   axios_get Demo.platform (rest_url (Str.split Str.slash Demo.issue_7))
     (rest_headers Demo.config) (world Demo.hello)
   = (Ok (Some (JObject [("body", JString "Hello")])), world Demo.hello) /\
   fs_readFileSync Demo.platform CHECKLIST_FILE (world Demo.hello)
   = (Ok Demo.template, world Demo.hello) /\
   Str.split Str.newline Demo.template !! 0 = Some "## Checklist" /\
   ~ substring "## Checklist" "Hello" /\
   exists st' events,
     webhook Demo.platform Demo.config (Demo.signed Demo.created) Demo.hello
     = (Ok {| status := 200; sent := "Webhook received and processed!" |}, st') /\
     trace st' = trace Demo.hello ++ events /\
     patches events
     = [AxiosPatch Demo.rest_7 (JObject [("body", JString Demo.appended)])
          (rest_headers Demo.config)]) /\
  (axios_get Demo.platform (rest_url (Str.split Str.slash Demo.issue_7))
     (rest_headers Demo.config) (world Cases.null_body)
   = (Ok (Some (JObject [("body", JNull)])), world Cases.null_body) /\
   ~ substring "## Checklist" EmptyString /\
   exists st' events,
     webhook Demo.platform Demo.config (Demo.signed Demo.created) Cases.null_body
     = (Ok {| status := 200; sent := "Webhook received and processed!" |}, st') /\
     trace st' = trace Cases.null_body ++ events /\
     patches events
     = [AxiosPatch Demo.rest_7
          (JObject [("body", JString (Demo.nl +:+ Demo.nl +:+ Demo.template))])
          (rest_headers Demo.config)]).
Proof.
  assert (Habsent : ~ substring "## Checklist" "Hello").
  { intros Hsub. apply StrFacts.includes_spec in Hsub. discriminate Hsub. }
  assert (Hempty : ~ substring "## Checklist" EmptyString).
  { intros Hsub. apply StrFacts.includes_spec in Hsub. discriminate Hsub. }
  split.
  - do 6 (split; [reflexivity|]). split; [exact Habsent|].
    apply (webhook_appends_checklist Demo.platform Demo.config "s3cret" "PVT_1"
             (Demo.signed Demo.created) Demo.hello (Some (JString "I_issue")) "I_issue"
             (Some (JObject [("data", JObject [("node",
                JObject [("url", JString Demo.issue_7); ("body", JString "Hello")])])]))
             None
             (Some (JObject [("node",
                JObject [("url", JString Demo.issue_7); ("body", JString "Hello")])]))
             [("url", JString Demo.issue_7); ("body", JString "Hello")]
             Demo.issue_7
             (Some (JObject [("body", JString "Hello")])) (Some (JString "Hello"))
             "Hello" Demo.template "## Checklist"
             (world Demo.hello) (world Demo.hello) (world Demo.hello));
      first [reflexivity | discriminate | exact Habsent | now left].
  - split; [reflexivity|]. split; [exact Hempty|].
    apply (webhook_appends_checklist Demo.platform Demo.config "s3cret" "PVT_1"
             (Demo.signed Demo.created) Cases.null_body (Some (JString "I_issue")) "I_issue"
             (Some (JObject [("data", JObject [("node",
                JObject [("url", JString Demo.issue_7); ("body", JString "Hello")])])]))
             None
             (Some (JObject [("node",
                JObject [("url", JString Demo.issue_7); ("body", JString "Hello")])]))
             [("url", JString Demo.issue_7); ("body", JString "Hello")]
             Demo.issue_7
             (Some (JObject [("body", JNull)])) (Some JNull)
             EmptyString Demo.template "## Checklist"
             (world Cases.null_body) (world Cases.null_body) (world Cases.null_body));
      first [reflexivity | discriminate | exact Hempty | (right; split; [now left | reflexivity])].
Defined.

(** ** The address of the REST calls *)

(** The pieces of the address GraphQL gives for an issue. *)
Lemma split_html_address (owner repo number : string) :
  Str.free_of Str.slash owner = true ->
  Str.free_of Str.slash repo = true ->
  Str.free_of Str.slash number = true ->
  Str.split Str.slash (html_address owner repo number)
  = ["https:"; EmptyString; "github.com"; owner; repo; "issues"; number].
Proof.
  intros Howner Hrepo Hnumber.
  change (html_address owner repo number)
    with ("https:" +:+ String Str.slash
            (EmptyString +:+ String Str.slash
               ("github.com" +:+ String Str.slash
                  (owner +:+ String Str.slash
                     (repo +:+ String Str.slash
                        ("issues" +:+ String Str.slash number)))))).
  rewrite !StrFacts.split_piece by (reflexivity || assumption).
  now rewrite (StrFacts.split_free _ _ Hnumber).
Qed.

Lemma rest_url_html_address (owner repo number : string) :
  Str.free_of Str.slash owner = true ->
  Str.free_of Str.slash repo = true ->
  Str.free_of Str.slash number = true ->
  rest_url (Str.split Str.slash (html_address owner repo number))
  = rest_address owner repo number.
Proof.
  intros Howner Hrepo Hnumber.
  now rewrite (split_html_address owner repo number Howner Hrepo Hnumber).
Qed.

(** C4, as amended: for an issue URL of the shape
    [https://github.com/{owner}/{repo}/issues/{number}], with no slash in
    the owner, the repository or the number, [updateIssueBody] takes the
    pieces at positions 3, 4 and 6 of the URL split at slashes, sends its
    GET at [https://api.github.com/repos/{owner}/{repo}/issues/{number}],
    and makes no other API call but, at most, a PATCH at that address. *)
Theorem updateIssueBody_addresses (P : Platform) (cfg : Config)
    (owner repo number : string) (st : State P) :
  Str.free_of Str.slash owner = true ->
  Str.free_of Str.slash repo = true ->
  Str.free_of Str.slash number = true ->
  Str.split Str.slash (html_address owner repo number) !! 3 = Some owner /\
  Str.split Str.slash (html_address owner repo number) !! 4 = Some repo /\
  Str.split Str.slash (html_address owner repo number) !! 6 = Some number /\
  exists st' events,
    updateIssueBody P cfg (Some (JString (html_address owner repo number))) st
    = (Ok (), st') /\
    trace st' = trace st
                ++ ConsoleLog (UpdatingIssueAt (rest_address owner repo number))
                :: AxiosGet (rest_address owner repo number) (rest_headers cfg)
                :: events /\
    Forall (aimed_at (rest_address owner repo number)) events.
Proof.
  intros Howner Hrepo Hnumber.
  rewrite (split_html_address owner repo number Howner Hrepo Hnumber).
  do 3 (split; [reflexivity|]).
  destruct (updateIssueBody_events P cfg (html_address owner repo number) st)
    as (st' & events & Hrun & Htrace & Haimed).
  rewrite (rest_url_html_address owner repo number Howner Hrepo Hnumber) in Htrace, Haimed.
  eauto.
Qed.

Lemma updateIssueBody_addresses_witness :
  Str.free_of Str.slash "octo" = true /\
  Str.free_of Str.slash "demo" = true /\
  Str.free_of Str.slash "7" = true /\
  html_address "octo" "demo" "7" = Demo.issue_7 /\
  rest_address "octo" "demo" "7" = Demo.rest_7 /\
  exists st' events,
    updateIssueBody Demo.platform Demo.config
      (Some (JString (html_address "octo" "demo" "7"))) Demo.hello
    = (Ok (), st') /\
    trace st' = trace Demo.hello
                ++ ConsoleLog (UpdatingIssueAt (rest_address "octo" "demo" "7"))
                :: AxiosGet (rest_address "octo" "demo" "7") (rest_headers Demo.config)
                :: events /\
    Forall (aimed_at (rest_address "octo" "demo" "7")) events.
Proof.
  do 5 (split; [reflexivity|]).
  apply (proj2 (proj2 (proj2 (updateIssueBody_addresses Demo.platform Demo.config
                                "octo" "demo" "7" Demo.hello eq_refl eq_refl eq_refl)))).
Defined.

(** C4, as stated, fails: on the REST address of an issue,
    [https://api.github.com/repos/octo/demo/issues/7], the pieces at
    positions 3, 4 and 6 are [repos], [octo] and [issues], and the GET goes
    to [https://api.github.com/repos/repos/octo/issues/issues], not to the
    address of the issue. *)
Lemma updateIssueBody_rest_address_counterexample :
  ~ (forall (P : Platform) (cfg : Config) (owner repo number : string) (st : State P),
       Str.free_of Str.slash owner = true ->
       Str.free_of Str.slash repo = true ->
       Str.free_of Str.slash number = true ->
       exists st' events,
         updateIssueBody P cfg (Some (JString (rest_address owner repo number))) st
         = (Ok (), st') /\
         trace st' = trace st
                     ++ ConsoleLog (UpdatingIssueAt (rest_address owner repo number))
                     :: AxiosGet (rest_address owner repo number) (rest_headers cfg)
                     :: events /\
         Forall (aimed_at (rest_address owner repo number)) events).
Proof.
  intros Hall.
  destruct (Hall Demo.platform Demo.config "octo" "demo" "7" Demo.hello
              eq_refl eq_refl eq_refl) as (st' & events & Hrun & Htrace & _).
  vm_compute in Hrun. injection Hrun as <-.
  vm_compute in Htrace. discriminate Htrace.
Qed.

(** The same run, evaluated: one API call, at the wrong address. *)
Example updateIssueBody_rest_address_run :
  api_calls (trace (snd (updateIssueBody Demo.platform Demo.config
                           (Some (JString (rest_address "octo" "demo" "7"))) Demo.hello)))
  = [AxiosGet "https://api.github.com/repos/repos/octo/issues/issues"
       (rest_headers Demo.config)].
Proof. reflexivity. Qed.

(** ** Failures of the update *)

Section UpdateFailures.
Variable P : Platform.
Variable cfg : Config.
Variable issueUrl : string.
Variable st : State P.

Lemma updateIssueBody_get_failed (e : JsError) (w : World P) :
  axios_get P (rest_url (Str.split Str.slash issueUrl)) (rest_headers cfg) (world st)
  = (Throw e, w) ->
  updateIssueBody P cfg (Some (JString issueUrl)) st =
  (Ok (),
   mkState w
     (trace st ++ [ ConsoleLog (UpdatingIssueAt (rest_url (Str.split Str.slash issueUrl)));
                    AxiosGet (rest_url (Str.split Str.slash issueUrl)) (rest_headers cfg);
                    ConsoleError (ErrorUpdatingIssue (error_detail e)) ])).
Proof.
  intros Hget. unfold updateIssueBody, updateIssueBody_try. run.
  rewrite Hget. simpl. now rewrite <- !List.app_assoc.
Qed.

Variables (issue b : JsValue) (w1 : World P).
Hypothesis issue_read :
  axios_get P (rest_url (Str.split Str.slash issueUrl)) (rest_headers cfg) (world st)
  = (Ok issue, w1).
Hypothesis issue_body_read : Js.get issue "body" = Ok b.

Lemma updateIssueBody_file_missing (e : JsError) (w2 : World P) :
  fs_readFileSync P CHECKLIST_FILE w1 = (Throw e, w2) ->
  updateIssueBody P cfg (Some (JString issueUrl)) st =
  (Ok (),
   mkState w2
     (trace st ++ [ ConsoleLog (UpdatingIssueAt (rest_url (Str.split Str.slash issueUrl)));
                    AxiosGet (rest_url (Str.split Str.slash issueUrl)) (rest_headers cfg);
                    ReadFileSync CHECKLIST_FILE;
                    ConsoleError (ErrorReadingChecklistFile e);
                    ConsoleLog ChecklistAlreadyExists ])).
Proof.
  intros Hread. unfold updateIssueBody, updateIssueBody_try, readChecklist. run.
  rewrite issue_read. simpl. rewrite issue_body_read. simpl.
  rewrite Hread. simpl. now rewrite <- !List.app_assoc.
Qed.

Variables (existing content line : string) (w2 : World P).
Hypothesis body_is : Js.or_else b (JString EmptyString) = JString existing.
Hypothesis checklist_read : fs_readFileSync P CHECKLIST_FILE w1 = (Ok content, w2).
Hypothesis first_line_is : Str.split Str.newline content !! 0 = Some line.
Hypothesis absent : Str.includes existing line = false.

Lemma updateIssueBody_patch_failed (e : JsError) (w3 : World P) :
  axios_patch P (rest_url (Str.split Str.slash issueUrl))
    (JObject [("body", JString (existing +:+ Str.blank_line +:+ content))])
    (rest_headers cfg) w2
  = (Throw e, w3) ->
  updateIssueBody P cfg (Some (JString issueUrl)) st =
  (Ok (),
   mkState w3
     (trace st ++ [ ConsoleLog (UpdatingIssueAt (rest_url (Str.split Str.slash issueUrl)));
                    AxiosGet (rest_url (Str.split Str.slash issueUrl)) (rest_headers cfg);
                    ReadFileSync CHECKLIST_FILE;
                    append_patch cfg (rest_url (Str.split Str.slash issueUrl)) existing content;
                    ConsoleError (ErrorUpdatingIssue (error_detail e)) ])).
Proof.
  intros Hpatch.
  unfold updateIssueBody, updateIssueBody_try, readChecklist, append_patch. run.
  rewrite issue_read. simpl. rewrite issue_body_read, body_is. simpl.
  rewrite checklist_read. simpl. rewrite first_line_is. simpl. rewrite absent. simpl.
  rewrite Hpatch. simpl. now rewrite <- !List.app_assoc.
Qed.

End UpdateFailures.

Section Status.
Variable P : Platform.
Variable cfg : Config.

(** The update step returns when the identifier converts to text and the
    resolver gives a string for the URL. *)
Lemma webhook_update_returns (contentNodeId : JsValue) (found : string) (st : State P) :
  Js.template (number_toString P) contentNodeId = Ok found ->
  url_is_text P cfg contentNodeId (world st) ->
  exists st', webhook_update P cfg contentNodeId st = (Ok (), st').
Proof.
  intros Hfound Htext. unfold webhook_update.
  destruct (Js.truthy contentNodeId); [|unfold console_log, emit; eauto].
  unfold mbind at 1, M_bind at 1, lift at 1. rewrite Hfound.
  unfold mbind at 1, M_bind at 1, console_log at 1, emit at 1.
  destruct (getIssueDetails_total P cfg contentNodeId
              (mkState (world st) (trace st ++ [ConsoleLog (FoundContentNodeId found)])))
    as (details & st1 & Hdetails).
  unfold mbind at 1, M_bind at 1. rewrite Hdetails.
  destruct details as [d|]; [|unfold console_log, emit; eauto].
  destruct (Js.truthy (url d)) eqn:Htruthy; [|unfold console_log, emit; eauto].
  destruct (Htext _ d st1 Hdetails Htruthy) as [u Hu]. rewrite Hu.
  unfold mbind at 1, M_bind at 1, lift at 1. cbn [Js.template Js.toString].
  unfold mbind at 1, M_bind at 1, console_log at 1, emit at 1.
  destruct (updateIssueBody_events P cfg u
              (mkState (world st1) (trace st1 ++ [ConsoleLog (IssueUrl u)])))
    as (st' & events & Hrun & _).
  rewrite Hrun. eauto.
Qed.

(** A verified request is answered 200. *)
Lemma webhook_verified_status (secret : string) (req : Request) (st : State P) :
  GITHUB_WEBHOOK_SECRET cfg = Some secret ->
  headers req !! X_HUB_SIGNATURE_256 = Some (expected_signature P secret req) ->
  (forall action, Js.get (Some (body req : Json)) "action" = Ok action ->
                  exists given, Js.template (number_toString P) action = Ok given) ->
  (forall id, item_field (body req) "content_node_id" = Ok id ->
              (exists found, Js.template (number_toString P) id = Ok found) /\
              url_is_text P cfg id (world st)) ->
  exists resp st', webhook P cfg req st = (Ok resp, st') /\ status resp = 200.
Proof.
  intros Hsecret Hverified Hprinted Htext. unfold webhook.
  rewrite (bind_ok _ _ _ _ _ (verifySignature_true P cfg secret Hsecret req st Hverified)).
  cbn [negb].
  destruct (item_field_ok (body req) "project_node_id") as [project Hproject].
  unfold mbind at 1, M_bind at 1, lift at 1. rewrite Hproject.
  destruct (Js.strict_eq_env project (PROJECT_NODE_ID cfg)); cbn [negb];
    [|do 2 eexists; split; reflexivity].
  destruct (item_field_ok (body req) "content_node_id") as [id Hid].
  unfold mbind at 1, M_bind at 1, lift at 1. rewrite Hid.
  destruct (body_action_ok (body req)) as [action Haction].
  unfold mbind at 1, M_bind at 1, lift at 1. rewrite Haction.
  destruct (Js.is_string action "created"); cbn [negb].
  - destruct (Htext id Hid) as [[found Hfound] Hurl].
    destruct (webhook_update_returns id found st Hfound Hurl) as [st' Hrun].
    unfold mbind at 1, M_bind at 1. rewrite Hrun.
    do 2 eexists; split; reflexivity.
  - destruct (Hprinted action Haction) as [given Hgiven].
    unfold mbind at 1, M_bind at 1, lift at 1. rewrite Hgiven.
    do 2 eexists; split; reflexivity.
Qed.

End Status.

(** C8: on an issue URL that is a string, well-formed or not,
    [updateIssueBody] always returns to the handler.  A GET that fails and
    a PATCH that fails are written to the error stream by its [catch]; a
    checklist file that cannot be read is written to the error stream by
    [readChecklist] and nothing is sent.  So every verified request whose
    action and content identifier convert to text (as strings and absent
    values do, the handler printing them in its log), and for which the
    resolver gives a string as the URL, is answered 200 whatever the
    update does. *)
Theorem update_failures_are_swallowed (P : Platform) (cfg : Config) :
  (forall issueUrl st,
     exists st', updateIssueBody P cfg (Some (JString issueUrl)) st = (Ok (), st')) /\
  (forall issueUrl st e w,
     axios_get P (rest_url (Str.split Str.slash issueUrl)) (rest_headers cfg) (world st)
     = (Throw e, w) ->
     updateIssueBody P cfg (Some (JString issueUrl)) st =
     (Ok (),
      mkState w
        (trace st ++ [ ConsoleLog (UpdatingIssueAt (rest_url (Str.split Str.slash issueUrl)));
                       AxiosGet (rest_url (Str.split Str.slash issueUrl)) (rest_headers cfg);
                       ConsoleError (ErrorUpdatingIssue (error_detail e)) ]))) /\
  (forall issueUrl st issue b w1 existing content line w2 e w3,
     axios_get P (rest_url (Str.split Str.slash issueUrl)) (rest_headers cfg) (world st)
     = (Ok issue, w1) ->
     Js.get issue "body" = Ok b ->
     Js.or_else b (JString EmptyString) = JString existing ->
     fs_readFileSync P CHECKLIST_FILE w1 = (Ok content, w2) ->
     Str.split Str.newline content !! 0 = Some line ->
     Str.includes existing line = false ->
     axios_patch P (rest_url (Str.split Str.slash issueUrl))
       (JObject [("body", JString (existing +:+ Str.blank_line +:+ content))])
       (rest_headers cfg) w2
     = (Throw e, w3) ->
     updateIssueBody P cfg (Some (JString issueUrl)) st =
     (Ok (),
      mkState w3
        (trace st ++ [ ConsoleLog (UpdatingIssueAt (rest_url (Str.split Str.slash issueUrl)));
                       AxiosGet (rest_url (Str.split Str.slash issueUrl)) (rest_headers cfg);
                       ReadFileSync CHECKLIST_FILE;
                       append_patch cfg (rest_url (Str.split Str.slash issueUrl))
                         existing content;
                       ConsoleError (ErrorUpdatingIssue (error_detail e)) ]))) /\
  (forall issueUrl st issue b w1 e w2,
     axios_get P (rest_url (Str.split Str.slash issueUrl)) (rest_headers cfg) (world st)
     = (Ok issue, w1) ->
     Js.get issue "body" = Ok b ->
     fs_readFileSync P CHECKLIST_FILE w1 = (Throw e, w2) ->
     updateIssueBody P cfg (Some (JString issueUrl)) st =
     (Ok (),
      mkState w2
        (trace st ++ [ ConsoleLog (UpdatingIssueAt (rest_url (Str.split Str.slash issueUrl)));
                       AxiosGet (rest_url (Str.split Str.slash issueUrl)) (rest_headers cfg);
                       ReadFileSync CHECKLIST_FILE;
                       ConsoleError (ErrorReadingChecklistFile e);
                       ConsoleLog ChecklistAlreadyExists ]))) /\
  (forall secret req st,
     GITHUB_WEBHOOK_SECRET cfg = Some secret ->
     headers req !! X_HUB_SIGNATURE_256 = Some (expected_signature P secret req) ->
     (forall action, Js.get (Some (body req : Json)) "action" = Ok action ->
                     exists given, Js.template (number_toString P) action = Ok given) ->
     (forall id, item_field (body req) "content_node_id" = Ok id ->
                 (exists found, Js.template (number_toString P) id = Ok found) /\
                 url_is_text P cfg id (world st)) ->
     exists resp st', webhook P cfg req st = (Ok resp, st') /\ status resp = 200).
Proof.
  split.
  { intros issueUrl st.
    destruct (updateIssueBody_events P cfg issueUrl st) as (st' & events & Hrun & _).
    eauto. }
  split; [intros; now apply updateIssueBody_get_failed|].
  split; [intros; eapply updateIssueBody_patch_failed; eassumption|].
  split; [intros; eapply updateIssueBody_file_missing; eassumption|].
  intros secret req st. apply webhook_verified_status.
Qed.

Lemma update_failures_are_swallowed_witness :
  (exists st',
     updateIssueBody Demo.platform Demo.config (Some (JString Demo.short_url)) Demo.hello
     = (Ok (), st')) /\
  (rest_url (Str.split Str.slash Demo.short_url)
   = "https://api.github.com/repos/octo/demo/issues/undefined" /\
   axios_get Demo.platform (rest_url (Str.split Str.slash Demo.short_url))
     (rest_headers Demo.config) (world Demo.hello)
   = (Throw Demo.not_found, world Demo.hello) /\
   trace (snd (updateIssueBody Demo.platform Demo.config (Some (JString Demo.short_url))
                 Demo.hello))
   = [ ConsoleLog (UpdatingIssueAt "https://api.github.com/repos/octo/demo/issues/undefined");
       AxiosGet "https://api.github.com/repos/octo/demo/issues/undefined"
         (rest_headers Demo.config);
       ConsoleError (ErrorUpdatingIssue (error_detail Demo.not_found)) ]) /\
  (axios_patch Demo.platform Demo.rest_7 (JObject [("body", JString Demo.appended)])
     (rest_headers Demo.config) (world Demo.read_only)
   = (Throw Demo.forbidden, world Demo.read_only) /\
   updateIssueBody Demo.platform Demo.config (Some (JString Demo.issue_7)) Demo.read_only
   = (Ok (),
      mkState (world Demo.read_only)
        [ ConsoleLog (UpdatingIssueAt Demo.rest_7);
          AxiosGet Demo.rest_7 (rest_headers Demo.config);
          ReadFileSync CHECKLIST_FILE;
          append_patch Demo.config Demo.rest_7 "Hello" Demo.template;
          ConsoleError (ErrorUpdatingIssue (error_detail Demo.forbidden)) ])) /\
  (fs_readFileSync Demo.platform CHECKLIST_FILE (world Demo.no_file)
   = (Throw Demo.no_such_file, world Demo.no_file) /\
   updateIssueBody Demo.platform Demo.config (Some (JString Demo.issue_7)) Demo.no_file
   = (Ok (),
      mkState (world Demo.no_file)
        [ ConsoleLog (UpdatingIssueAt Demo.rest_7);
          AxiosGet Demo.rest_7 (rest_headers Demo.config);
          ReadFileSync CHECKLIST_FILE;
          ConsoleError (ErrorReadingChecklistFile Demo.no_such_file);
          ConsoleLog ChecklistAlreadyExists ])) /\
  (headers (Demo.signed Demo.created) !! X_HUB_SIGNATURE_256
   = Some (expected_signature Demo.platform "s3cret" (Demo.signed Demo.created)) /\
   exists resp st',
     webhook Demo.platform Demo.config (Demo.signed Demo.created) Demo.read_only
     = (Ok resp, st') /\ status resp = 200).
Proof.
  pose proof (update_failures_are_swallowed Demo.platform Demo.config)
    as (Hreturns & Hget & Hpatch & Hfile & Hstatus).
  split; [apply Hreturns|].
  split.
  { split; [reflexivity|]. split; [reflexivity|].
    rewrite (Hget Demo.short_url Demo.hello Demo.not_found (world Demo.hello) eq_refl).
    reflexivity. }
  split.
  { split; [reflexivity|].
    rewrite (Hpatch Demo.issue_7 Demo.read_only
               (Some (JObject [("body", JString "Hello")])) (Some (JString "Hello"))
               (world Demo.read_only) "Hello" Demo.template "## Checklist"
               (world Demo.read_only) Demo.forbidden (world Demo.read_only)
               eq_refl eq_refl eq_refl eq_refl eq_refl eq_refl eq_refl).
    reflexivity. }
  split.
  { split; [reflexivity|].
    rewrite (Hfile Demo.issue_7 Demo.no_file
               (Some (JObject [("body", JString "Hello")])) (Some (JString "Hello"))
               (world Demo.no_file) Demo.no_such_file (world Demo.no_file)
               eq_refl eq_refl eq_refl).
    reflexivity. }
  split; [reflexivity|].
  apply (Hstatus "s3cret" (Demo.signed Demo.created) Demo.read_only eq_refl eq_refl).
  - intros action Haction. injection Haction as <-. now exists "created".
  - intros id Hid. injection Hid as <-. split; [now exists "I_issue"|].
    intros t d st' Hdetails _. vm_compute in Hdetails.
    injection Hdetails as <- _. now exists Demo.issue_7.
Defined.

(** The limit of C8: [split] is called before the [try], so an issue URL
    that is not a string (a number here) makes [updateIssueBody] throw to
    the handler. *)
Example updateIssueBody_not_a_string :
  updateIssueBody Demo.platform Demo.config (Some (JNumber 7%float)) Demo.hello
  = (Throw (TypeError "issueUrl.split is not a function"), Demo.hello).
Proof. reflexivity. Qed.

(** * Further properties of the handler *)

(** ** The checklist file *)

Lemma split_head (sep : ascii) (s : string) :
  exists piece,
    Str.split sep s !! 0 = Some piece /\
    Str.free_of sep piece = true /\
    (s = piece \/ exists rest, s = piece +:+ String sep rest).
Proof.
  induction s as [|c s (piece & Hpiece & Hfree & Hshape)]; simpl.
  - exists EmptyString. split; [reflexivity|]. split; [reflexivity|]. now left.
  - destruct (Ascii.eqb_spec c sep) as [->|Hne].
    + exists EmptyString. split; [reflexivity|]. split; [reflexivity|]. right. now exists s.
    + destruct (Str.split sep s) as [|first others]; [discriminate|].
      injection Hpiece as ->. exists (String c piece).
      split; [reflexivity|]. split.
      * simpl. apply Ascii.eqb_neq in Hne. now rewrite Hne, Hfree.
      * destruct Hshape as [->|[rest ->]]; [now left|]. right. now exists rest.
Qed.

(** X1: when the checklist file can be read, [readChecklist] returns its
    whole content and, as first line, the text before the first line feed:
    a string with no line feed in it that the content starts with, followed
    by nothing or by a line feed. *)
Theorem readChecklist_first_line (P : Platform) (st : State P) (content : string)
    (w : World P) :
  fs_readFileSync P CHECKLIST_FILE (world st) = (Ok content, w) ->
  exists c line,
    readChecklist P st = (Ok (Some c), mkState w (trace st ++ [ReadFileSync CHECKLIST_FILE])) /\
    fullContent c = content /\
    firstLine c = Some line /\
    Str.free_of Str.newline line = true /\
    (content = line \/ exists rest, content = line +:+ String Str.newline rest).
Proof.
  intros Hread. destruct (split_head Str.newline content) as (line & Hline & Hfree & Hshape).
  exists {| firstLine := Str.split Str.newline content !! 0; fullContent := content |}, line.
  split; [apply (readChecklist_read P st content w Hread)|].
  split; [reflexivity|]. split; [exact Hline|]. split; assumption.
Qed.

Lemma readChecklist_first_line_witness :
  fs_readFileSync Demo.platform CHECKLIST_FILE (world Demo.hello)
  = (Ok Demo.template, world Demo.hello) /\
  exists c line,
    readChecklist Demo.platform Demo.hello
    = (Ok (Some c), mkState (world Demo.hello) (trace Demo.hello ++ [ReadFileSync CHECKLIST_FILE])) /\
    fullContent c = Demo.template /\
    firstLine c = Some line /\
    Str.free_of Str.newline line = true /\
    (Demo.template = line \/ exists rest, Demo.template = line +:+ String Str.newline rest).
Proof.
  split; [reflexivity|].
  apply (readChecklist_first_line Demo.platform Demo.hello Demo.template (world Demo.hello)).
  reflexivity.
Defined.

(** ** The resolver *)

Section ResolverCalls.
Variable P : Platform.
Variable cfg : Config.
Variable contentNodeId : JsValue.
Variable st : State P.

(** Whatever the endpoint answers, [getIssueDetails] returns in the world
    the POST left, having recorded the POST and at most one error line. *)
Lemma getIssueDetails_events :
  exists details lines,
    getIssueDetails P cfg contentNodeId st
    = (Ok details,
       mkState (snd (snd (graphql_call P cfg contentNodeId) (world st)))
         (trace st ++ fst (graphql_call P cfg contentNodeId) :: lines)) /\
    (lines = [] \/ exists line, lines = [ConsoleError line]).
Proof.
  unfold getIssueDetails, graphql_call. run.
  destruct (axios_post P _ _ _ (world st)) as [[data|e] w]; simpl.
  2:{ do 2 eexists. rewrite <- List.app_assoc. split; [reflexivity|]. right. eauto. }
  destruct (Js.get data "errors") as [errors|e]; simpl.
  2:{ do 2 eexists. rewrite <- List.app_assoc. split; [reflexivity|]. right. eauto. }
  destruct (Js.truthy errors); simpl.
  { do 2 eexists. rewrite <- List.app_assoc. split; [reflexivity|]. right. eauto. }
  destruct (Js.get data "data") as [data'|e]; simpl.
  2:{ do 2 eexists. rewrite <- List.app_assoc. split; [reflexivity|]. right. eauto. }
  destruct (Js.get data' "node") as [node|e]; simpl.
  2:{ do 2 eexists. rewrite <- List.app_assoc. split; [reflexivity|]. right. eauto. }
  destruct (Js.truthy node) eqn:Hnode; simpl.
  2:{ do 2 eexists. split; [reflexivity|]. now left. }
  destruct (get_truthy node "url" Hnode) as [u ->].
  destruct (get_truthy node "body" Hnode) as [b ->]. simpl.
  do 2 eexists. split; [reflexivity|]. now left.
Qed.

(** Any truthy [errors] ends the lookup. *)
Lemma getIssueDetails_truthy_errors (data errors : JsValue) (w : World P) :
  snd (graphql_call P cfg contentNodeId) (world st) = (Ok data, w) ->
  Js.get data "errors" = Ok errors ->
  Js.truthy errors = true ->
  getIssueDetails P cfg contentNodeId st =
  (Ok None,
   mkState w (trace st ++ [ fst (graphql_call P cfg contentNodeId);
                            ConsoleError (ErrorFetchingIssueDetails errors) ])).
Proof.
  unfold graphql_call, getIssueDetails. run. intros -> -> ->. simpl.
  now rewrite <- List.app_assoc.
Qed.

(** A property read that throws inside the [try] ends in the [catch]. *)
Lemma getIssueDetails_no_data (data errors data' : JsValue) (e : JsError) (w : World P) :
  snd (graphql_call P cfg contentNodeId) (world st) = (Ok data, w) ->
  Js.get data "errors" = Ok errors ->
  Js.truthy errors = false ->
  Js.get data "data" = Ok data' ->
  Js.get data' "node" = Throw e ->
  getIssueDetails P cfg contentNodeId st =
  (Ok None,
   mkState w (trace st ++ [ fst (graphql_call P cfg contentNodeId);
                            ConsoleError (ErrorDuringGraphQLRequest e) ])).
Proof.
  unfold graphql_call, getIssueDetails. run. intros -> -> -> -> ->. simpl.
  now rewrite <- List.app_assoc.
Qed.

End ResolverCalls.

(** X2: on every platform and for every identifier, [getIssueDetails]
    returns (it never throws) after exactly one API call, the POST of the
    query and the identifier to [https://api.github.com/graphql] with the
    bearer token; besides it, the trace gains at most one error line, and
    the world is the one the POST left. *)
Theorem getIssueDetails_one_call (P : Platform) (cfg : Config) (contentNodeId : JsValue)
    (st : State P) :
  exists details st' events,
    getIssueDetails P cfg contentNodeId st = (Ok details, st') /\
    trace st' = trace st ++ events /\
    api_calls events
    = [AxiosPost "https://api.github.com/graphql"
         (JObject [ ("query", JString query);
                    ("variables", JObject match contentNodeId with
                                          | Some id => [("id", id)]
                                          | None => []
                                          end) ])
         [ ("Content-Type", "application/json");
           ("Authorization", "Bearer " +:+ Js.show (GITHUB_TOKEN cfg)) ]] /\
    length events <= 2 /\
    world st'
    = snd (axios_post P "https://api.github.com/graphql" (graphql_request contentNodeId)
             (graphql_headers cfg) (world st)).
Proof.
  destruct (getIssueDetails_events P cfg contentNodeId st) as (details & lines & Hrun & Hlines).
  exists details. eexists. exists (fst (graphql_call P cfg contentNodeId) :: lines).
  split; [exact Hrun|]. split; [reflexivity|].
  destruct Hlines as [->|[line ->]]; repeat split; simpl; lia.
Qed.

(** X3: [getIssueDetails] takes any truthy [errors] in the answer as a
    failure, an empty list too, and then returns [null] with the errors
    written to the error stream, whether or not the answer has a node. *)
Theorem getIssueDetails_any_errors (P : Platform) (cfg : Config) (contentNodeId : JsValue)
    (st : State P) (data errors : JsValue) (w : World P) :
  axios_post P "https://api.github.com/graphql" (graphql_request contentNodeId)
    (graphql_headers cfg) (world st) = (Ok data, w) ->
  Js.get data "errors" = Ok errors ->
  (Js.truthy errors = true \/ exists items, errors = Some (JArray items)) ->
  getIssueDetails P cfg contentNodeId st =
  (Ok None,
   mkState w (trace st ++ [ AxiosPost "https://api.github.com/graphql"
                              (graphql_request contentNodeId) (graphql_headers cfg);
                            ConsoleError (ErrorFetchingIssueDetails errors) ])).
Proof.
  intros Hpost Herrors Htruthy.
  assert (Hyes : Js.truthy errors = true)
    by (destruct Htruthy as [H|[items ->]]; [exact H | reflexivity]).
  apply (getIssueDetails_truthy_errors P cfg contentNodeId st data errors w Hpost Herrors Hyes).
Qed.

Lemma getIssueDetails_any_errors_witness :
  axios_post (Cases.answering Cases.empty_errors) "https://api.github.com/graphql"
    (graphql_request (Some (JString "I_issue"))) (graphql_headers Demo.config)
    (world (Cases.start Cases.empty_errors))
  = (Ok Cases.empty_errors, world (Cases.start Cases.empty_errors)) /\
  Js.get Cases.empty_errors "errors" = Ok (Some (JArray [])) /\
  fst (getIssueDetails (Cases.answering Cases.empty_errors) Demo.config
         (Some (JString "I_issue")) (Cases.start Cases.empty_errors))
  = Ok None.
Proof.
  split; [reflexivity|]. split; [reflexivity|].
  rewrite (getIssueDetails_any_errors (Cases.answering Cases.empty_errors) Demo.config
             (Some (JString "I_issue")) (Cases.start Cases.empty_errors)
             Cases.empty_errors (Some (JArray []))
             (world (Cases.start Cases.empty_errors)) eq_refl eq_refl
             (or_intror (ex_intro _ [] eq_refl))).
  reflexivity.
Defined.

(** X4: when the answer has no truthy [errors] and its [data] is missing
    or [null], reading [node] throws inside the [try]: [getIssueDetails]
    writes that error and returns [null]. *)
Theorem getIssueDetails_missing_data (P : Platform) (cfg : Config) (contentNodeId : JsValue)
    (st : State P) (data errors data' : JsValue) (w : World P) :
  axios_post P "https://api.github.com/graphql" (graphql_request contentNodeId)
    (graphql_headers cfg) (world st) = (Ok data, w) ->
  Js.get data "errors" = Ok errors ->
  Js.truthy errors = false ->
  Js.get data "data" = Ok data' ->
  data' = None \/ data' = Some JNull ->
  exists e,
    getIssueDetails P cfg contentNodeId st =
    (Ok None,
     mkState w (trace st ++ [ AxiosPost "https://api.github.com/graphql"
                                (graphql_request contentNodeId) (graphql_headers cfg);
                              ConsoleError (ErrorDuringGraphQLRequest e) ])).
Proof.
  intros Hpost Herrors Hnone Hdata Hmissing.
  assert (Hthrow : exists e, Js.get data' "node" = Throw e)
    by (destruct Hmissing as [->| ->]; simpl; eauto).
  destruct Hthrow as [e Hthrow]. exists e.
  apply (getIssueDetails_no_data P cfg contentNodeId st data errors data' e w
           Hpost Herrors Hnone Hdata Hthrow).
Qed.

Lemma getIssueDetails_missing_data_witness :
  axios_post (Cases.answering Cases.no_data) "https://api.github.com/graphql"
    (graphql_request (Some (JString "I_issue"))) (graphql_headers Demo.config)
    (world (Cases.start Cases.no_data))
  = (Ok Cases.no_data, world (Cases.start Cases.no_data)) /\
  Js.get Cases.no_data "errors" = Ok None /\
  Js.get Cases.no_data "data" = Ok None /\
  exists e,
    getIssueDetails (Cases.answering Cases.no_data) Demo.config (Some (JString "I_issue"))
      (Cases.start Cases.no_data)
    = (Ok None,
       mkState (world (Cases.start Cases.no_data))
         (trace (Cases.start Cases.no_data)
          ++ [ AxiosPost "https://api.github.com/graphql"
                 (graphql_request (Some (JString "I_issue"))) (graphql_headers Demo.config);
               ConsoleError (ErrorDuringGraphQLRequest e) ])).
Proof.
  split; [reflexivity|]. split; [reflexivity|]. split; [reflexivity|].
  apply (getIssueDetails_missing_data (Cases.answering Cases.no_data) Demo.config
           (Some (JString "I_issue")) (Cases.start Cases.no_data)
           Cases.no_data None None (world (Cases.start Cases.no_data))
           eq_refl eq_refl eq_refl eq_refl (or_introl eq_refl)).
Defined.

(** ** The handler when there is nothing to update *)

Section NothingToUpdate.
Variable P : Platform.
Variable cfg : Config.
Variable contentNodeId : JsValue.
Variable st : State P.

Lemma webhook_update_no_content :
  Js.truthy contentNodeId = false ->
  webhook_update P cfg contentNodeId st
  = (Ok (), mkState (world st) (trace st ++ [ConsoleLog ContentNodeIdNotFound])).
Proof. intros Hnone. unfold webhook_update. now rewrite Hnone. Qed.

Lemma webhook_update_unresolved (found : string) (details : option IssueDetails)
    (st1 : State P) :
  Js.truthy contentNodeId = true ->
  Js.template (number_toString P) contentNodeId = Ok found ->
  getIssueDetails P cfg contentNodeId (asking st found) = (Ok details, st1) ->
  unresolved details = true ->
  webhook_update P cfg contentNodeId st
  = (Ok (), mkState (world st1) (trace st1 ++ [ConsoleLog CouldNotFetchIssueDetails])).
Proof.
  intros Hid Hfound Hdetails Hnone. unfold webhook_update. rewrite Hid.
  unfold mbind at 1, M_bind at 1, lift at 1. rewrite Hfound.
  unfold mbind at 1, M_bind at 1, console_log at 1, emit at 1.
  unfold mbind at 1, M_bind at 1. fold (asking st found). rewrite Hdetails.
  destruct details as [d|]; [|reflexivity].
  simpl in Hnone. apply negb_true_iff in Hnone. now rewrite Hnone.
Qed.

End NothingToUpdate.

(** X5: a verified [created] event of the target project whose
    [projects_v2_item.content_node_id] is absent or falsy (null, the empty
    string, zero, false) is answered 200 after one line written to the
    log, with no API call. *)
Theorem webhook_no_content (P : Platform) (cfg : Config) (secret target : string)
    (req : Request) (st : State P) (contentNodeId : JsValue) :
  GITHUB_WEBHOOK_SECRET cfg = Some secret ->
  PROJECT_NODE_ID cfg = Some target ->
  headers req !! X_HUB_SIGNATURE_256 = Some (expected_signature P secret req) ->
  item_field (body req) "project_node_id" = Ok (Some (JString target)) ->
  Js.get (Some (body req : Json)) "action" = Ok (Some (JString "created")) ->
  item_field (body req) "content_node_id" = Ok contentNodeId ->
  Js.truthy contentNodeId = false ->
  exists st',
    webhook P cfg req st
    = (Ok {| status := 200; sent := "Webhook received and processed!" |}, st') /\
    trace st' = trace st ++ [ConsoleLog ContentNodeIdNotFound] /\
    no_api_call st st'.
Proof.
  intros Hsecret Htarget Hverified Hproject Haction Hid Hnone.
  rewrite (webhook_created P cfg secret target Hsecret Htarget req Hverified Hproject
             Haction contentNodeId Hid st).
  rewrite (webhook_update_no_content P cfg contentNodeId st Hnone).
  eexists. split; [reflexivity|]. split; [reflexivity|].
  split; [reflexivity|]. now exists [ConsoleLog ContentNodeIdNotFound].
Qed.

Lemma webhook_no_content_witness :
  headers (Demo.signed Cases.no_content) !! X_HUB_SIGNATURE_256
  = Some (expected_signature Demo.platform "s3cret" (Demo.signed Cases.no_content)) /\
  item_field Cases.no_content "content_node_id" = Ok None /\
  exists st',
    webhook Demo.platform Demo.config (Demo.signed Cases.no_content) Demo.hello
    = (Ok {| status := 200; sent := "Webhook received and processed!" |}, st') /\
    trace st' = trace Demo.hello ++ [ConsoleLog ContentNodeIdNotFound] /\
    no_api_call Demo.hello st'.
Proof.
  split; [reflexivity|]. split; [reflexivity|].
  apply (webhook_no_content Demo.platform Demo.config "s3cret" "PVT_1"
           (Demo.signed Cases.no_content) Demo.hello None);
    reflexivity.
Defined.

(** X6: a verified [created] event of the target project whose identifier
    (a value that converts to text, as a string does) does not resolve
    (the resolver returns [null], or details with a falsy [url]) is
    answered 200; the only API call of the run is the GraphQL POST: no REST
    call is made. *)
Theorem webhook_unresolved (P : Platform) (cfg : Config) (secret target : string)
    (req : Request) (st : State P) (contentNodeId : JsValue) (found : string)
    (details : option IssueDetails) (st1 : State P) :
  GITHUB_WEBHOOK_SECRET cfg = Some secret ->
  PROJECT_NODE_ID cfg = Some target ->
  headers req !! X_HUB_SIGNATURE_256 = Some (expected_signature P secret req) ->
  item_field (body req) "project_node_id" = Ok (Some (JString target)) ->
  Js.get (Some (body req : Json)) "action" = Ok (Some (JString "created")) ->
  item_field (body req) "content_node_id" = Ok contentNodeId ->
  Js.truthy contentNodeId = true ->
  Js.template (number_toString P) contentNodeId = Ok found ->
  getIssueDetails P cfg contentNodeId (asking st found) = (Ok details, st1) ->
  unresolved details = true ->
  exists st' events,
    webhook P cfg req st
    = (Ok {| status := 200; sent := "Webhook received and processed!" |}, st') /\
    trace st' = trace st ++ events /\
    api_calls events
    = [AxiosPost "https://api.github.com/graphql" (graphql_request contentNodeId)
         (graphql_headers cfg)].
Proof.
  intros Hsecret Htarget Hverified Hproject Haction Hid Hgiven Hfound Hdetails Hnone.
  rewrite (webhook_created P cfg secret target Hsecret Htarget req Hverified Hproject
             Haction contentNodeId Hid st).
  rewrite (webhook_update_unresolved P cfg contentNodeId st found details st1
             Hgiven Hfound Hdetails Hnone).
  destruct (getIssueDetails_events P cfg contentNodeId (asking st found))
    as (details' & lines & Hrun & Hlines).
  rewrite Hrun in Hdetails. injection Hdetails as _ <-.
  do 2 eexists. split; [reflexivity|]. cbn [trace asking].
  rewrite <- !List.app_assoc. split; [reflexivity|].
  destruct Hlines as [->|[line ->]]; reflexivity.
Qed.

Lemma webhook_unresolved_witness :
  headers (Demo.signed (Demo.payload "created" "I_gone")) !! X_HUB_SIGNATURE_256
  = Some (expected_signature Demo.platform "s3cret"
            (Demo.signed (Demo.payload "created" "I_gone"))) /\
  Js.template (number_toString Demo.platform) (Some (JString "I_gone")) = Ok "I_gone" /\
  fst (getIssueDetails Demo.platform Demo.config (Some (JString "I_gone"))
         (asking Demo.hello "I_gone"))
  = Ok None /\
  exists st' events,
    webhook Demo.platform Demo.config (Demo.signed (Demo.payload "created" "I_gone"))
      Demo.hello
    = (Ok {| status := 200; sent := "Webhook received and processed!" |}, st') /\
    trace st' = trace Demo.hello ++ events /\
    api_calls events
    = [AxiosPost "https://api.github.com/graphql"
         (graphql_request (Some (JString "I_gone"))) (graphql_headers Demo.config)].
Proof.
  split; [reflexivity|]. split; [reflexivity|]. split; [reflexivity|].
  apply (webhook_unresolved Demo.platform Demo.config "s3cret" "PVT_1"
           (Demo.signed (Demo.payload "created" "I_gone")) Demo.hello
           (Some (JString "I_gone")) "I_gone" None
           (snd (getIssueDetails Demo.platform Demo.config (Some (JString "I_gone"))
                   (asking Demo.hello "I_gone"))));
    reflexivity.
Defined.

(** The limit of X6 and of every property of the update step: a content
    identifier that is an object with an own [toString] member cannot be
    printed; the handler throws before the POST and sends no response. *)
Example webhook_content_object :
  webhook Demo.platform Demo.config (Demo.signed Cases.odd_content) Demo.hello
  = (Throw (TypeError "Cannot convert object to primitive value"), Demo.hello).
Proof. reflexivity. Qed.

(** ** The calls of a run *)

Section UpdaterCalls.
Variable P : Platform.
Variable cfg : Config.
Variable issueUrl : string.
Variable st : State P.

(** On a string, [updateIssueBody] returns having sent its GET and, at
    most, one PATCH after it, at the same address. *)
Lemma updateIssueBody_calls :
  exists st' events,
    updateIssueBody P cfg (Some (JString issueUrl)) st = (Ok (), st') /\
    trace st' = trace st ++ events /\
    (api_calls events
     = [AxiosGet (rest_url (Str.split Str.slash issueUrl)) (rest_headers cfg)] \/
     exists text,
       api_calls events
       = [AxiosGet (rest_url (Str.split Str.slash issueUrl)) (rest_headers cfg);
          AxiosPatch (rest_url (Str.split Str.slash issueUrl))
            (JObject [("body", JString text)]) (rest_headers cfg)]).
Proof.
  unfold updateIssueBody, updateIssueBody_try, readChecklist. run.
  set (address := rest_url (Str.split Str.slash issueUrl)).
  destruct (axios_get P address (rest_headers cfg) (world st)) as [[issue|e] w1]; simpl.
  2:{ do 2 eexists. split; [reflexivity|]. simpl. rewrite <- !List.app_assoc.
      split; [reflexivity|]. now left. }
  destruct (Js.get issue "body") as [b|e]; simpl.
  2:{ do 2 eexists. split; [reflexivity|]. simpl. rewrite <- !List.app_assoc.
      split; [reflexivity|]. now left. }
  destruct (fs_readFileSync P CHECKLIST_FILE w1) as [[content|e] w2]; simpl.
  2:{ do 2 eexists. split; [reflexivity|]. simpl. rewrite <- !List.app_assoc.
      split; [reflexivity|]. now left. }
  destruct (Js.includes (Js.or_else b (JString EmptyString))
              (Str.split Str.newline content !! 0)) as [[|]|e]; simpl.
  - do 2 eexists. split; [reflexivity|]. simpl. rewrite <- !List.app_assoc.
    split; [reflexivity|]. now left.
  - destruct (Js.toString (number_toString P) (Js.or_else b (JString EmptyString)))
      as [existing|e]; simpl.
    2:{ do 2 eexists. split; [reflexivity|]. simpl. rewrite <- !List.app_assoc.
        split; [reflexivity|]. now left. }
    destruct (axios_patch P address _ (rest_headers cfg) w2) as [[answer|e] w3]; simpl;
      do 2 eexists; (split; [reflexivity|]); simpl; rewrite <- !List.app_assoc;
      (split; [reflexivity|]); right; eexists; reflexivity.
  - do 2 eexists. split; [reflexivity|]. simpl. rewrite <- !List.app_assoc.
    split; [reflexivity|]. now left.
Qed.

End UpdaterCalls.

(** On a value that is not a string, [updateIssueBody] throws at [split],
    before the [try]: nothing is written and nothing is sent. *)
Lemma updateIssueBody_split_throws (P : Platform) (cfg : Config) (issueUrl : JsValue)
    (st : State P) :
  (forall s, issueUrl <> Some (JString s)) ->
  exists e, updateIssueBody P cfg issueUrl st = (Throw e, st).
Proof.
  intros Hnot. unfold updateIssueBody. run.
  destruct issueUrl as [[| | |s| |]|]; simpl; eauto.
  now destruct (Hnot s).
Qed.

(** X7: on every platform, an issue URL that is a string makes
    [updateIssueBody] return after one GET at the address built from the
    pieces 3, 4 and 6 of the URL and, at most, one PATCH after it, at the
    same address and with one [body] string as data; both carry the token
    and the accept header.  It makes no other API call. *)
Theorem updateIssueBody_get_then_patch (P : Platform) (cfg : Config) (issueUrl : string)
    (st : State P) :
  exists st' events,
    updateIssueBody P cfg (Some (JString issueUrl)) st = (Ok (), st') /\
    trace st' = trace st ++ events /\
    exists address,
      address = "https://api.github.com/repos/"
                  +:+ Js.show (Str.split Str.slash issueUrl !! 3) +:+ "/"
                  +:+ Js.show (Str.split Str.slash issueUrl !! 4) +:+ "/issues/"
                  +:+ Js.show (Str.split Str.slash issueUrl !! 6) /\
      (api_calls events = [AxiosGet address (rest_headers cfg)] \/
       exists text,
         api_calls events
         = [AxiosGet address (rest_headers cfg);
            AxiosPatch address (JObject [("body", JString text)]) (rest_headers cfg)]).
Proof.
  destruct (updateIssueBody_calls P cfg issueUrl st) as (st' & events & Hrun & Htrace & Hcalls).
  exists st', events. split; [exact Hrun|]. split; [exact Htrace|].
  exists (rest_url (Str.split Str.slash issueUrl)). split; [reflexivity|].
  exact Hcalls.
Qed.

Lemma api_calls_split (t u : list Event) : api_calls (t ++ u) = api_calls t ++ api_calls u.
Proof. apply List.filter_app. Qed.

Lemma is_text (v : JsValue) : (exists s, v = Some (JString s)) \/ (forall s, v <> Some (JString s)).
Proof. destruct v as [[| | |s| |]|]; try (right; intros s'; discriminate). left. eauto. Qed.

Section HandlerCalls.
Variable P : Platform.
Variable cfg : Config.

(** The update step, whatever the platform answers and whether it returns
    or throws: its API calls are the POST, then at most a GET, then at most
    a PATCH. *)
Lemma webhook_update_calls (contentNodeId : JsValue) (st : State P) :
  exists r st' events,
    webhook_update P cfg contentNodeId st = (r, st') /\
    trace st' = trace st ++ events /\
    in_order P cfg (api_calls events).
Proof.
  unfold webhook_update. destruct (Js.truthy contentNodeId).
  2:{ do 3 eexists. split; [reflexivity|]. split; [reflexivity|]. now left. }
  unfold mbind at 1, M_bind at 1, lift at 1.
  destruct (Js.template (number_toString P) contentNodeId) as [found|e].
  2:{ exists (Throw e), st, []. rewrite List.app_nil_r. repeat split. now left. }
  unfold mbind at 1, M_bind at 1, console_log at 1, emit at 1.
  fold (asking st found). unfold mbind at 1, M_bind at 1.
  destruct (getIssueDetails_events P cfg contentNodeId (asking st found))
    as (details & lines & Hrun & Hlines).
  rewrite Hrun. set (st1 := mkState _ _).
  assert (Hquiet : api_calls lines = []) by (destruct Hlines as [->|[line ->]]; reflexivity).
  assert (Hst1 : trace st1
                 = trace st ++ ConsoleLog (FoundContentNodeId found)
                   :: fst (graphql_call P cfg contentNodeId) :: lines).
  { subst st1. cbn [trace asking]. now rewrite <- List.app_assoc. }
  assert (Hpost : forall more,
            api_calls more = [] ->
            in_order P cfg
              (api_calls (ConsoleLog (FoundContentNodeId found)
                          :: fst (graphql_call P cfg contentNodeId) :: lines ++ more))).
  { intros more Hmore. right. exists contentNodeId. left.
    cbn [api_calls List.filter is_api_call graphql_call fst].
    fold (api_calls (lines ++ more)). now rewrite api_calls_split, Hquiet, Hmore. }
  assert (Hlog : forall line,
            exists r st' events,
              console_log (P:=P) line st1 = (r, st') /\
              trace st' = trace st ++ events /\
              in_order P cfg (api_calls events)).
  { intros line. do 3 eexists. split; [reflexivity|]. cbn [trace]. rewrite Hst1.
    rewrite <- List.app_assoc. split; [reflexivity|]. cbn [app]. now apply Hpost. }
  destruct details as [d|]; [|apply Hlog].
  destruct (Js.truthy (url d)); [|apply Hlog].
  unfold mbind at 1, M_bind at 1, lift at 1.
  destruct (Js.template (number_toString P) (url d)) as [address|e].
  2:{ do 3 eexists. split; [reflexivity|]. rewrite Hst1. split; [reflexivity|].
      rewrite <- (List.app_nil_r lines). now apply Hpost. }
  unfold mbind at 1, M_bind at 1, console_log at 1, emit at 1.
  set (st2 := mkState _ _).
  assert (Hst2 : trace st2
                 = trace st ++ ConsoleLog (FoundContentNodeId found)
                   :: fst (graphql_call P cfg contentNodeId)
                   :: lines ++ [ConsoleLog (IssueUrl address)]).
  { subst st2. cbn [trace]. rewrite Hst1. now rewrite <- List.app_assoc. }
  destruct (is_text (url d)) as [[u ->]|Hnot].
  - destruct (updateIssueBody_calls P cfg u st2) as (st' & events & Hupdate & Htrace & Hcalls).
    rewrite Hupdate. do 3 eexists. split; [reflexivity|]. rewrite Htrace, Hst2.
    rewrite <- List.app_assoc. split; [reflexivity|]. cbn [app]. rewrite <- List.app_assoc.
    right. exists contentNodeId. right.
    exists (rest_url (Str.split Str.slash u)).
    cbn [api_calls List.filter is_api_call graphql_call fst].
    fold (api_calls (lines ++ [ConsoleLog (IssueUrl address)] ++ events)).
    rewrite !api_calls_split, Hquiet. cbn [app api_calls List.filter is_api_call].
    fold (api_calls events).
    destruct Hcalls as [->|[text ->]]; [now left | right; now exists text].
  - destruct (updateIssueBody_split_throws P cfg (url d) st2 Hnot) as [e Hthrow].
    rewrite Hthrow. do 3 eexists. split; [reflexivity|]. rewrite Hst2.
    split; [reflexivity|]. now apply Hpost.
Qed.

(** The same for the whole handler. *)
Lemma webhook_calls (req : Request) (st : State P) :
  exists r st' events,
    webhook P cfg req st = (r, st') /\
    trace st' = trace st ++ events /\
    in_order P cfg (api_calls events).
Proof.
  assert (Hnothing : forall r, exists (r' : Outcome Response) (st' : State P) events,
            (r, st) = (r', st') /\ trace st' = trace st ++ events /\
            in_order P cfg (api_calls events)).
  { intros r. exists r, st, []. rewrite List.app_nil_r. repeat split. now left. }
  assert (Hline : forall r line, exists (r' : Outcome Response) (st' : State P) events,
            (r, mkState (world st) (trace st ++ [ConsoleLog line])) = (r', st') /\
            trace st' = trace st ++ events /\ in_order P cfg (api_calls events)).
  { intros r line. do 3 eexists. split; [reflexivity|]. split; [reflexivity|]. now left. }
  unfold webhook, verifySignature.
  unfold mbind at 1, M_bind at 1. unfold mbind at 1, M_bind at 1, lift at 1.
  unfold createHmac. destruct (GITHUB_WEBHOOK_SECRET cfg) as [secret|]; [|apply Hnothing].
  cbn [mret M_ret].
  destruct (match headers req !! X_HUB_SIGNATURE_256 with
            | Some s => String.eqb s _
            | None => false
            end); cbn [negb]; [|apply Hline].
  destruct (item_field_ok (body req) "project_node_id") as [project Hproject].
  unfold mbind at 1, M_bind at 1, lift at 1. rewrite Hproject.
  destruct (Js.strict_eq_env project (PROJECT_NODE_ID cfg)); cbn [negb]; [|apply Hline].
  destruct (item_field_ok (body req) "content_node_id") as [id Hid].
  unfold mbind at 1, M_bind at 1, lift at 1. rewrite Hid.
  destruct (body_action_ok (body req)) as [action Haction].
  unfold mbind at 1, M_bind at 1, lift at 1. rewrite Haction.
  destruct (Js.is_string action "created"); cbn [negb].
  2:{ unfold mbind at 1, M_bind at 1, lift at 1.
      destruct (Js.template (number_toString P) action) as [given|e];
        [apply Hline | apply Hnothing]. }
  destruct (webhook_update_calls id st) as (r & st' & events & Hrun & Htrace & Horder).
  unfold mbind at 1, M_bind at 1. rewrite Hrun.
  destruct r as [[]|e]; do 3 eexists; (split; [reflexivity|]); split; eassumption.
Qed.

End HandlerCalls.

(** X8: on every platform, with every configuration and for every request,
    whether the handler answers or throws, its API calls are, in order:
    none; or the GraphQL POST; or the POST and one GET; or the POST, one
    GET and one PATCH at the address of the GET.  So no REST call is made
    without the lookup, no PATCH without the GET of the same issue, and
    never a second call of a kind. *)
Theorem webhook_calls_in_order (P : Platform) (cfg : Config) (req : Request) (st : State P) :
  exists r st' events,
    webhook P cfg req st = (r, st') /\
    trace st' = trace st ++ events /\
    in_order P cfg (api_calls events) /\
    length (api_calls events) <= 3 /\
    length (patches events) <= 1.
Proof.
  destruct (webhook_calls P cfg req st) as (r & st' & events & Hrun & Htrace & Horder).
  exists r, st', events. split; [exact Hrun|]. split; [exact Htrace|].
  split; [exact Horder|].
  assert (Hsame : patches events = patches (api_calls events)).
  { unfold patches, api_calls. clear. induction events as [|e events IH]; [reflexivity|].
    destruct e; simpl; now rewrite ?IH. }
  rewrite Hsame.
  destruct Horder as [->|(id & [->|(address & [->|(text & ->)])])]; simpl; lia.
Qed.

(** ** Updating twice *)

Lemma append_assoc (a b c : string) : (a +:+ b) +:+ c = a +:+ b +:+ c.
Proof.
  induction a as [|x a IH]; [reflexivity|].
  change (String x ((a +:+ b) +:+ c) = String x (a +:+ b +:+ c)). now rewrite IH.
Qed.

Lemma append_empty (a : string) : a +:+ EmptyString = a.
Proof.
  induction a as [|x a IH]; [reflexivity|].
  change (String x (a +:+ EmptyString) = String x a). now rewrite IH.
Qed.

(** The first line of a text occurs in whatever ends with the text. *)
Lemma first_line_in_appended (before content line : string) :
  Str.split Str.newline content !! 0 = Some line ->
  substring line (before +:+ content).
Proof.
  intros Hline.
  destruct (split_head Str.newline content) as (line' & Hline' & _ & Hshape).
  rewrite Hline in Hline'. injection Hline' as <-.
  destruct Hshape as [->|[rest ->]].
  - exists before, EmptyString. now rewrite append_empty.
  - exists before, (String Str.newline rest). reflexivity.
Qed.

(** X9: an issue whose body is some text, two line feeds and the content of
    the checklist file, which is the body [updateIssueBody] writes, is not
    patched again, whatever the text and the file are: the update appends
    at most once. *)
Theorem updateIssueBody_appends_once (P : Platform) (cfg : Config) (issueUrl : string)
    (st : State P) (issue : JsValue) (previous content : string) (w1 w2 : World P) :
  axios_get P (rest_url (Str.split Str.slash issueUrl)) (rest_headers cfg) (world st)
  = (Ok issue, w1) ->
  Js.get issue "body" = Ok (Some (JString (previous +:+ Str.blank_line +:+ content))) ->
  fs_readFileSync P CHECKLIST_FILE w1 = (Ok content, w2) ->
  exists st',
    updateIssueBody P cfg (Some (JString issueUrl)) st = (Ok (), st') /\
    no_patch st st' /\
    world st' = w2.
Proof.
  intros Hget Hbody Hread.
  destruct (StrFacts.split_first Str.newline content) as [line Hline].
  assert (Hin : Str.includes (previous +:+ Str.blank_line +:+ content) line = true).
  { apply StrFacts.includes_spec. rewrite <- append_assoc.
    now apply first_line_in_appended. }
  eexists. split.
  - apply (updateIssueBody_run_present P cfg issueUrl st issue _ _ content line w1 w2
             Hget Hbody (or_else_string _) Hread Hline Hin).
  - split; [|reflexivity]. now exists
      [ ConsoleLog (UpdatingIssueAt (rest_url (Str.split Str.slash issueUrl)));
        AxiosGet (rest_url (Str.split Str.slash issueUrl)) (rest_headers cfg);
        ReadFileSync CHECKLIST_FILE;
        ConsoleLog ChecklistAlreadyExists ].
Qed.

Lemma updateIssueBody_appends_once_witness :
  axios_get Demo.platform (rest_url (Str.split Str.slash Demo.issue_7))
    (rest_headers Demo.config) (world Demo.done)
  = (Ok (Some (JObject [("body", JString ("Hello" +:+ Str.blank_line +:+ Demo.template))])),
     world Demo.done) /\
  fs_readFileSync Demo.platform CHECKLIST_FILE (world Demo.done)
  = (Ok Demo.template, world Demo.done) /\
  exists st',
    updateIssueBody Demo.platform Demo.config (Some (JString Demo.issue_7)) Demo.done
    = (Ok (), st') /\
    no_patch Demo.done st' /\
    world st' = world Demo.done.
Proof.
  split; [reflexivity|]. split; [reflexivity|].
  apply (updateIssueBody_appends_once Demo.platform Demo.config Demo.issue_7 Demo.done
           (Some (JObject [("body", JString ("Hello" +:+ Str.blank_line +:+ Demo.template))]))
           "Hello" Demo.template (world Demo.done) (world Demo.done));
    reflexivity.
Defined.

(** ** Issue URLs of other shapes *)

Lemma split_last_piece (sep : ascii) (piece tail : string) :
  Str.free_of sep piece = true ->
  tail = EmptyString \/ (exists t, tail = String sep t) ->
  exists others, Str.split sep (piece +:+ tail) = piece :: others.
Proof.
  intros Hfree [->|[t ->]].
  - exists []. rewrite append_empty. now apply StrFacts.split_free.
  - exists (Str.split sep t). now apply StrFacts.split_piece.
Qed.

Lemma rest_url_seven_pieces (p0 p1 p2 owner repo kind number tail : string) :
  Str.free_of Str.slash p0 = true -> Str.free_of Str.slash p1 = true ->
  Str.free_of Str.slash p2 = true -> Str.free_of Str.slash owner = true ->
  Str.free_of Str.slash repo = true -> Str.free_of Str.slash kind = true ->
  Str.free_of Str.slash number = true ->
  tail = EmptyString \/ (exists t, tail = String Str.slash t) ->
  rest_url (Str.split Str.slash (seven_pieces p0 p1 p2 owner repo kind number tail))
  = rest_address owner repo number.
Proof.
  intros H0 H1 H2 Howner Hrepo Hkind Hnumber Htail.
  change (seven_pieces p0 p1 p2 owner repo kind number tail)
    with (p0 +:+ String Str.slash
            (p1 +:+ String Str.slash
               (p2 +:+ String Str.slash
                  (owner +:+ String Str.slash
                     (repo +:+ String Str.slash
                        (kind +:+ String Str.slash (number +:+ tail))))))).
  rewrite !StrFacts.split_piece by assumption.
  destruct (split_last_piece Str.slash number tail Hnumber Htail) as [others ->].
  reflexivity.
Qed.

(** X10: [updateIssueBody] looks at nothing but the pieces 3, 4 and 6 of
    the URL: for seven slash-free pieces joined by slashes, followed by
    nothing or by a slash and anything, whatever the pieces 0, 1, 2 and 5
    are (the scheme, the host, [issues] or [pull]), the GET, and the PATCH
    if there is one, go to
    [https://api.github.com/repos/{piece 3}/{piece 4}/issues/{piece 6}]. *)
Theorem updateIssueBody_other_shapes (P : Platform) (cfg : Config)
    (p0 p1 p2 owner repo kind number tail : string) (st : State P) :
  Str.free_of Str.slash p0 = true -> Str.free_of Str.slash p1 = true ->
  Str.free_of Str.slash p2 = true -> Str.free_of Str.slash owner = true ->
  Str.free_of Str.slash repo = true -> Str.free_of Str.slash kind = true ->
  Str.free_of Str.slash number = true ->
  tail = EmptyString \/ (exists t, tail = String Str.slash t) ->
  exists st' events,
    updateIssueBody P cfg
      (Some (JString (seven_pieces p0 p1 p2 owner repo kind number tail))) st
    = (Ok (), st') /\
    trace st' = trace st ++ events /\
    (api_calls events = [AxiosGet (rest_address owner repo number) (rest_headers cfg)] \/
     exists text,
       api_calls events
       = [AxiosGet (rest_address owner repo number) (rest_headers cfg);
          AxiosPatch (rest_address owner repo number)
            (JObject [("body", JString text)]) (rest_headers cfg)]).
Proof.
  intros H0 H1 H2 Howner Hrepo Hkind Hnumber Htail.
  destruct (updateIssueBody_calls P cfg
              (seven_pieces p0 p1 p2 owner repo kind number tail) st)
    as (st' & events & Hrun & Htrace & Hcalls).
  rewrite (rest_url_seven_pieces p0 p1 p2 owner repo kind number tail
             H0 H1 H2 Howner Hrepo Hkind Hnumber Htail) in Hcalls.
  eauto.
Qed.

Lemma updateIssueBody_other_shapes_witness :
  seven_pieces "https:" EmptyString "github.com" "octo" "demo" "pull" "7" "/files"
  = Cases.pull_url /\
  rest_address "octo" "demo" "7" = Demo.rest_7 /\
  exists st' events,
    updateIssueBody Demo.platform Demo.config
      (Some (JString (seven_pieces "https:" EmptyString "github.com" "octo" "demo"
                        "pull" "7" "/files"))) Demo.hello
    = (Ok (), st') /\
    trace st' = trace Demo.hello ++ events /\
    (api_calls events
     = [AxiosGet (rest_address "octo" "demo" "7") (rest_headers Demo.config)] \/
     exists text,
       api_calls events
       = [AxiosGet (rest_address "octo" "demo" "7") (rest_headers Demo.config);
          AxiosPatch (rest_address "octo" "demo" "7")
            (JObject [("body", JString text)]) (rest_headers Demo.config)]).
Proof.
  split; [reflexivity|]. split; [reflexivity|].
  apply (updateIssueBody_other_shapes Demo.platform Demo.config
           "https:" EmptyString "github.com" "octo" "demo" "pull" "7" "/files" Demo.hello
           eq_refl eq_refl eq_refl eq_refl eq_refl eq_refl eq_refl
           (or_intror (ex_intro _ "files" eq_refl))).
Defined.

(** [split] gives one piece more than there are separators. *)
Lemma split_length (sep : ascii) (s : string) :
  length (Str.split sep s) = S (occurrences sep s).
Proof.
  induction s as [|c s IH]; simpl; [reflexivity|].
  destruct (Ascii.eqb c sep); simpl; [now rewrite IH|].
  destruct (Str.split sep s); simpl in *; [discriminate | exact IH].
Qed.

(** X11: an issue URL is not validated: when it has fewer than six slashes
    there is no piece 6, and [updateIssueBody] still sends its GET, to an
    address that ends in [/issues/undefined]. *)
Theorem updateIssueBody_short_url (P : Platform) (cfg : Config) (issueUrl : string)
    (st : State P) :
  occurrences Str.slash issueUrl < 6 ->
  exists st' events rest,
    updateIssueBody P cfg (Some (JString issueUrl)) st = (Ok (), st') /\
    trace st' = trace st ++ events /\
    api_calls events
    = AxiosGet ("https://api.github.com/repos/"
                  +:+ Js.show (Str.split Str.slash issueUrl !! 3) +:+ "/"
                  +:+ Js.show (Str.split Str.slash issueUrl !! 4) +:+ "/issues/undefined")
               (rest_headers cfg) :: rest.
Proof.
  intros Hfew.
  assert (Hnone : Str.split Str.slash issueUrl !! 6 = None).
  { apply lookup_ge_None. rewrite split_length. lia. }
  destruct (updateIssueBody_calls P cfg issueUrl st) as (st' & events & Hrun & Htrace & Hcalls).
  unfold rest_url in Hcalls. rewrite Hnone in Hcalls.
  exists st', events.
  destruct Hcalls as [Hcalls|[text Hcalls]]; eexists;
    (split; [exact Hrun|]); (split; [exact Htrace|]); exact Hcalls.
Qed.

Lemma updateIssueBody_short_url_witness :
  occurrences Str.slash Demo.short_url < 6 /\
  exists st' events rest,
    updateIssueBody Demo.platform Demo.config (Some (JString Demo.short_url)) Demo.hello
    = (Ok (), st') /\
    trace st' = trace Demo.hello ++ events /\
    api_calls events
    = AxiosGet ("https://api.github.com/repos/"
                  +:+ Js.show (Str.split Str.slash Demo.short_url !! 3) +:+ "/"
                  +:+ Js.show (Str.split Str.slash Demo.short_url !! 4)
                  +:+ "/issues/undefined")
               (rest_headers Demo.config) :: rest.
Proof.
  assert (Hfew : occurrences Str.slash Demo.short_url < 6) by (vm_compute; lia).
  split; [exact Hfew|].
  apply (updateIssueBody_short_url Demo.platform Demo.config Demo.short_url Demo.hello Hfew).
Defined.

(** ** An issue with no body *)

Lemma or_else_falsy (b : JsValue) :
  Js.truthy b = false -> Js.or_else b (JString EmptyString) = JString EmptyString.
Proof. intros Hfalsy. unfold Js.or_else. destruct b; [now rewrite Hfalsy | reflexivity]. Qed.

Lemma includes_in_empty (line : string) :
  line <> EmptyString -> Str.includes EmptyString line = false.
Proof. intros Hline. destruct line; [contradiction | reflexivity]. Qed.

(** X12: when the GET returns an issue whose [body] is missing or falsy
    ([null], the empty string) and the first line of the checklist file is
    not empty, [updateIssueBody] sends one PATCH, and the new body is two
    line feeds followed by the file: it starts with an empty line. *)
Theorem updateIssueBody_no_body (P : Platform) (cfg : Config) (issueUrl : string)
    (st : State P) (issue b : JsValue) (content line : string) (w1 w2 : World P) :
  axios_get P (rest_url (Str.split Str.slash issueUrl)) (rest_headers cfg) (world st)
  = (Ok issue, w1) ->
  Js.get issue "body" = Ok b ->
  Js.truthy b = false ->
  fs_readFileSync P CHECKLIST_FILE w1 = (Ok content, w2) ->
  Str.split Str.newline content !! 0 = Some line ->
  line <> EmptyString ->
  exists st' events,
    updateIssueBody P cfg (Some (JString issueUrl)) st = (Ok (), st') /\
    trace st' = trace st ++ events /\
    patches events
    = [AxiosPatch (rest_url (Str.split Str.slash issueUrl))
         (JObject [("body", JString (String Str.newline (String Str.newline content)))])
         (rest_headers cfg)].
Proof.
  intros Hget Hbody Hfalsy Hread Hline Hnonempty.
  destruct (updateIssueBody_run_absent P cfg issueUrl st issue b EmptyString content line
              w1 w2 Hget Hbody (or_else_falsy b Hfalsy) Hread Hline
              (includes_in_empty line Hnonempty))
    as (st' & last & Hrun & Htrace & Hlast).
  do 2 eexists. split; [exact Hrun|]. split; [exact Htrace|].
  unfold patches. cbn [List.filter is_patch append_patch].
  now rewrite (is_patch_api_call last Hlast).
Qed.

Lemma updateIssueBody_no_body_witness :
  axios_get Demo.platform (rest_url (Str.split Str.slash Demo.issue_7))
    (rest_headers Demo.config) (world Cases.null_body)
  = (Ok (Some (JObject [("body", JNull)])), world Cases.null_body) /\
  fs_readFileSync Demo.platform CHECKLIST_FILE (world Cases.null_body)
  = (Ok Demo.template, world Cases.null_body) /\
  Str.split Str.newline Demo.template !! 0 = Some "## Checklist" /\
  exists st' events,
    updateIssueBody Demo.platform Demo.config (Some (JString Demo.issue_7)) Cases.null_body
    = (Ok (), st') /\
    trace st' = trace Cases.null_body ++ events /\
    patches events
    = [AxiosPatch (rest_url (Str.split Str.slash Demo.issue_7))
         (JObject [("body",
              JString (String Str.newline (String Str.newline Demo.template)))])
         (rest_headers Demo.config)].
Proof.
  do 3 (split; [reflexivity|]).
  apply (updateIssueBody_no_body Demo.platform Demo.config Demo.issue_7 Cases.null_body
           (Some (JObject [("body", JNull)])) (Some JNull) Demo.template "## Checklist"
           (world Cases.null_body) (world Cases.null_body));
    first [reflexivity | discriminate].
Defined.

(** ** The configuration *)

(** X13: when [GITHUB_WEBHOOK_SECRET] is not set, [createHmac] rejects the
    key: [verifySignature] throws for every request, signed or not, and so
    does the handler, before it writes, sends or answers anything. *)
Theorem webhook_without_secret (P : Platform) (cfg : Config) (req : Request) (st : State P) :
  GITHUB_WEBHOOK_SECRET cfg = None ->
  exists e,
    verifySignature P cfg req st = (Throw e, st) /\
    webhook P cfg req st = (Throw e, st).
Proof.
  intros Hunset. exists (TypeError "The key argument must be of type string").
  assert (Hverify : verifySignature P cfg req st
                    = (Throw (TypeError "The key argument must be of type string"), st)).
  { unfold verifySignature, createHmac. now rewrite Hunset. }
  split; [exact Hverify|]. unfold webhook.
  unfold mbind at 1, M_bind at 1. now rewrite Hverify.
Qed.

Lemma webhook_without_secret_witness :
  GITHUB_WEBHOOK_SECRET Cases.no_secret = None /\
  exists e,
    verifySignature Demo.platform Cases.no_secret (Demo.signed Demo.created) Demo.hello
    = (Throw e, Demo.hello) /\
    webhook Demo.platform Cases.no_secret (Demo.signed Demo.created) Demo.hello
    = (Throw e, Demo.hello).
Proof.
  split; [reflexivity|].
  apply (webhook_without_secret Demo.platform Cases.no_secret (Demo.signed Demo.created)
           Demo.hello eq_refl).
Defined.

Section Passing.
Variable P : Platform.
Variable cfg : Config.
Variable secret : string.
Hypothesis secret_configured : GITHUB_WEBHOOK_SECRET cfg = Some secret.
Variable req : Request.
Hypothesis verified :
  headers req !! X_HUB_SIGNATURE_256 = Some (expected_signature P secret req).
Variable project : JsValue.
Hypothesis project_read : item_field (body req) "project_node_id" = Ok project.

Lemma webhook_skipped (st : State P) :
  Js.strict_eq_env project (PROJECT_NODE_ID cfg) = false ->
  webhook P cfg req st =
  (Ok {| status := 200; sent := "No action taken." |},
   mkState (world st)
     (trace st ++ [ConsoleLog (ProjectMismatch project (PROJECT_NODE_ID cfg))])).
Proof.
  intros Hne. unfold webhook.
  rewrite (bind_ok _ _ _ _ _ (verifySignature_true P cfg secret secret_configured req st verified)).
  cbn [negb]. unfold mbind at 1, M_bind at 1, lift at 1. rewrite project_read.
  now rewrite Hne.
Qed.

Lemma webhook_passed (st : State P) (contentNodeId : JsValue) :
  Js.strict_eq_env project (PROJECT_NODE_ID cfg) = true ->
  item_field (body req) "content_node_id" = Ok contentNodeId ->
  Js.get (Some (body req : Json)) "action" = Ok (Some (JString "created")) ->
  webhook P cfg req st =
  match webhook_update P cfg contentNodeId st with
  | (Ok _, st') =>
      (Ok {| status := 200; sent := "Webhook received and processed!" |}, st')
  | (Throw e, st') => (Throw e, st')
  end.
Proof.
  intros Hsame Hid Haction. unfold webhook.
  rewrite (bind_ok _ _ _ _ _ (verifySignature_true P cfg secret secret_configured req st verified)).
  cbn [negb]. unfold mbind at 1, M_bind at 1, lift at 1. rewrite project_read.
  rewrite Hsame. cbn [negb].
  unfold mbind at 1, M_bind at 1, lift at 1. rewrite Hid.
  unfold mbind at 1, M_bind at 1, lift at 1. rewrite Haction.
  cbn [Js.is_string]. rewrite String.eqb_refl. cbn [negb].
  unfold mbind at 1, M_bind at 1.
  destruct (webhook_update P cfg contentNodeId st) as [[[]|e] st']; reflexivity.
Qed.

End Passing.

(** With an identifier that converts to text, the update step writes it
    and sends the POST, whatever follows. *)
Lemma webhook_update_asks (P : Platform) (cfg : Config) (contentNodeId : JsValue)
    (found : string) (st : State P) :
  Js.truthy contentNodeId = true ->
  Js.template (number_toString P) contentNodeId = Ok found ->
  exists r st' events,
    webhook_update P cfg contentNodeId st = (r, st') /\
    trace st' = trace st ++ ConsoleLog (FoundContentNodeId found)
                         :: fst (graphql_call P cfg contentNodeId) :: events.
Proof.
  intros Hid Hfound. unfold webhook_update. rewrite Hid.
  unfold mbind at 1, M_bind at 1, lift at 1. rewrite Hfound.
  unfold mbind at 1, M_bind at 1, console_log at 1, emit at 1.
  fold (asking st found). unfold mbind at 1, M_bind at 1.
  destruct (getIssueDetails_events P cfg contentNodeId (asking st found))
    as (details & lines & Hrun & _).
  rewrite Hrun. set (st1 := mkState _ _).
  assert (Hst1 : trace st1
                 = trace st ++ ConsoleLog (FoundContentNodeId found)
                   :: fst (graphql_call P cfg contentNodeId) :: lines).
  { subst st1. cbn [trace asking]. now rewrite <- List.app_assoc. }
  assert (Hlog : forall line,
            exists r st' events,
              console_log (P:=P) line st1 = (r, st') /\
              trace st' = trace st ++ ConsoleLog (FoundContentNodeId found)
                                   :: fst (graphql_call P cfg contentNodeId) :: events).
  { intros line. do 3 eexists. split; [reflexivity|]. cbn [trace]. rewrite Hst1.
    now rewrite <- List.app_assoc. }
  destruct details as [d|]; [|apply Hlog].
  destruct (Js.truthy (url d)); [|apply Hlog].
  unfold mbind at 1, M_bind at 1, lift at 1.
  destruct (Js.template (number_toString P) (url d)) as [address|e].
  2:{ do 3 eexists. split; [reflexivity|]. exact Hst1. }
  unfold mbind at 1, M_bind at 1, console_log at 1, emit at 1.
  set (st2 := mkState _ _).
  assert (Hst2 : trace st2
                 = trace st ++ ConsoleLog (FoundContentNodeId found)
                   :: fst (graphql_call P cfg contentNodeId)
                   :: lines ++ [ConsoleLog (IssueUrl address)]).
  { subst st2. cbn [trace]. rewrite Hst1. now rewrite <- List.app_assoc. }
  destruct (is_text (url d)) as [[u ->]|Hnot].
  - destruct (updateIssueBody_calls P cfg u st2) as (st' & events & Hupdate & Htrace & _).
    rewrite Hupdate. do 3 eexists. split; [reflexivity|]. rewrite Htrace, Hst2.
    rewrite <- List.app_assoc. cbn [app]. now rewrite <- List.app_assoc.
  - destruct (updateIssueBody_split_throws P cfg (url d) st2 Hnot) as [e Hthrow].
    rewrite Hthrow. do 3 eexists. split; [reflexivity|]. exact Hst2.
Qed.

(** X14: when [PROJECT_NODE_ID] is not set, the project check compares
    with [undefined]: a verified event that carries a project identifier,
    whatever it is, is answered 200 with no API call, and a verified
    [created] event that carries none is processed: its content
    identifier, a truthy value that converts to text (as a string does),
    is written to the log and sent in the GraphQL POST. *)
Theorem webhook_without_target (P : Platform) (cfg : Config) (secret : string)
    (req : Request) (st : State P) (project : JsValue) :
  GITHUB_WEBHOOK_SECRET cfg = Some secret ->
  PROJECT_NODE_ID cfg = None ->
  headers req !! X_HUB_SIGNATURE_256 = Some (expected_signature P secret req) ->
  item_field (body req) "project_node_id" = Ok project ->
  (project <> None ->
   exists st',
     webhook P cfg req st = (Ok {| status := 200; sent := "No action taken." |}, st') /\
     no_api_call st st') /\
  (project = None ->
   forall contentNodeId found,
     item_field (body req) "content_node_id" = Ok contentNodeId ->
     Js.truthy contentNodeId = true ->
     Js.template (number_toString P) contentNodeId = Ok found ->
     Js.get (Some (body req : Json)) "action" = Ok (Some (JString "created")) ->
     exists r st' events,
       webhook P cfg req st = (r, st') /\
       trace st' = trace st
                   ++ ConsoleLog (FoundContentNodeId found)
                   :: AxiosPost "https://api.github.com/graphql"
                        (graphql_request contentNodeId) (graphql_headers cfg)
                   :: events).
Proof.
  intros Hsecret Hunset Hverified Hproject. split.
  - intros Hsome.
    assert (Hne : Js.strict_eq_env project (PROJECT_NODE_ID cfg) = false)
      by (rewrite Hunset; destruct project; [reflexivity | contradiction]).
    rewrite (webhook_skipped P cfg secret Hsecret req Hverified project Hproject st Hne).
    eexists. split; [reflexivity|]. apply no_api_call_line.
  - intros -> contentNodeId found Hid Hgiven Hfound Haction.
    assert (Hsame : Js.strict_eq_env None (PROJECT_NODE_ID cfg) = true)
      by (now rewrite Hunset).
    rewrite (webhook_passed P cfg secret Hsecret req Hverified None Hproject st
               contentNodeId Hsame Hid Haction).
    destruct (webhook_update_asks P cfg contentNodeId found st Hgiven Hfound)
      as (r & st' & events & Hrun & Htrace).
    rewrite Hrun. destruct r as [[]|e]; do 3 eexists; split; (reflexivity || exact Htrace).
Qed.

Lemma webhook_without_target_witness :
  PROJECT_NODE_ID Cases.no_target = None /\
  (item_field Demo.created "project_node_id" = Ok (Some (JString "PVT_1")) /\
   exists st',
     webhook Demo.platform Cases.no_target (Demo.signed Demo.created) Demo.hello
     = (Ok {| status := 200; sent := "No action taken." |}, st') /\
     no_api_call Demo.hello st') /\
  (item_field Cases.no_project "project_node_id" = Ok None /\
   item_field Cases.no_project "content_node_id" = Ok (Some (JString "I_issue")) /\
   Js.template (number_toString Demo.platform) (Some (JString "I_issue")) = Ok "I_issue" /\
   exists r st' events,
     webhook Demo.platform Cases.no_target (Demo.signed Cases.no_project) Demo.hello
     = (r, st') /\
     trace st' = trace Demo.hello
                 ++ ConsoleLog (FoundContentNodeId "I_issue")
                 :: AxiosPost "https://api.github.com/graphql"
                      (graphql_request (Some (JString "I_issue")))
                      (graphql_headers Cases.no_target)
                 :: events).
Proof.
  split; [reflexivity|]. split.
  - split; [reflexivity|].
    apply (proj1 (webhook_without_target Demo.platform Cases.no_target "s3cret"
                    (Demo.signed Demo.created) Demo.hello (Some (JString "PVT_1"))
                    eq_refl eq_refl eq_refl eq_refl)).
    discriminate.
  - split; [reflexivity|]. split; [reflexivity|]. split; [reflexivity|].
    apply (proj2 (webhook_without_target Demo.platform Cases.no_target "s3cret"
                    (Demo.signed Cases.no_project) Demo.hello None
                    eq_refl eq_refl eq_refl eq_refl)
             eq_refl (Some (JString "I_issue")) "I_issue" eq_refl eq_refl eq_refl eq_refl).
Defined.

(** ** What the caller gets *)

(** X15: the handler has no [try] of its own.  When the content identifier
    converts to text and the resolver gives a truthy [url] that is not a
    string, the handler throws, so no response is sent: either where it
    builds the log line for the URL (an object that does not convert to
    text), or in [updateIssueBody], which calls [split] before its [try].
    In both cases the only API call of the run is the GraphQL POST. *)
Theorem webhook_url_not_text (P : Platform) (cfg : Config) (secret target : string)
    (req : Request) (st : State P) (contentNodeId : JsValue) (found : string)
    (d : IssueDetails) (st1 : State P) :
  GITHUB_WEBHOOK_SECRET cfg = Some secret ->
  PROJECT_NODE_ID cfg = Some target ->
  headers req !! X_HUB_SIGNATURE_256 = Some (expected_signature P secret req) ->
  item_field (body req) "project_node_id" = Ok (Some (JString target)) ->
  Js.get (Some (body req : Json)) "action" = Ok (Some (JString "created")) ->
  item_field (body req) "content_node_id" = Ok contentNodeId ->
  Js.truthy contentNodeId = true ->
  Js.template (number_toString P) contentNodeId = Ok found ->
  getIssueDetails P cfg contentNodeId (asking st found) = (Ok (Some d), st1) ->
  Js.truthy (url d) = true ->
  (forall s, url d <> Some (JString s)) ->
  exists e st' events,
    webhook P cfg req st = (Throw e, st') /\
    trace st' = trace st ++ events /\
    api_calls events
    = [AxiosPost "https://api.github.com/graphql" (graphql_request contentNodeId)
         (graphql_headers cfg)].
Proof.
  intros Hsecret Htarget Hverified Hproject Haction Hid Hgiven Hfound Hdetails Htruthy Hnot.
  rewrite (webhook_created P cfg secret target Hsecret Htarget req Hverified Hproject
             Haction contentNodeId Hid st).
  unfold webhook_update. rewrite Hgiven.
  unfold mbind at 1, M_bind at 1, lift at 1. rewrite Hfound.
  unfold mbind at 1, M_bind at 1, console_log at 1, emit at 1.
  fold (asking st found). unfold mbind at 1, M_bind at 1. rewrite Hdetails.
  rewrite Htruthy.
  destruct (getIssueDetails_events P cfg contentNodeId (asking st found))
    as (details' & lines & Hrun & Hlines).
  rewrite Hrun in Hdetails. injection Hdetails as _ <-.
  assert (Hquiet : api_calls lines = []) by (destruct Hlines as [->|[line ->]]; reflexivity).
  unfold mbind at 1, M_bind at 1, lift at 1.
  destruct (Js.template (number_toString P) (url d)) as [address|e].
  - unfold mbind at 1, M_bind at 1, console_log at 1, emit at 1.
    set (st2 := mkState _ _).
    destruct (updateIssueBody_split_throws P cfg (url d) st2 Hnot) as [e Hthrow].
    rewrite Hthrow. exists e. do 2 eexists. split; [reflexivity|].
    subst st2. cbn [trace asking]. rewrite <- !List.app_assoc. split; [reflexivity|].
    cbn [app api_calls List.filter is_api_call graphql_call fst].
    fold (api_calls (lines ++ [ConsoleLog (IssueUrl address)])).
    now rewrite api_calls_split, Hquiet.
  - exists e. do 2 eexists. split; [reflexivity|].
    cbn [trace asking]. rewrite <- !List.app_assoc. split; [reflexivity|].
    cbn [app api_calls List.filter is_api_call graphql_call fst].
    fold (api_calls lines). now rewrite Hquiet.
Qed.

Lemma webhook_url_not_text_witness :
  (fst (getIssueDetails (Cases.answering Cases.number_url) Demo.config
          (Some (JString "I_issue")) (asking (Cases.start Cases.number_url) "I_issue"))
   = Ok (Some {| url := Some (JNumber 7%float); issue_body := Some (JString "Hello") |}) /\
   exists e st' events,
     webhook (Cases.answering Cases.number_url) Demo.config (Demo.signed Demo.created)
       (Cases.start Cases.number_url)
     = (Throw e, st') /\
     trace st' = trace (Cases.start Cases.number_url) ++ events /\
     api_calls events
     = [AxiosPost "https://api.github.com/graphql"
          (graphql_request (Some (JString "I_issue"))) (graphql_headers Demo.config)]) /\
  (fst (getIssueDetails (Cases.answering Cases.odd_url) Demo.config
          (Some (JString "I_issue")) (asking (Cases.start Cases.odd_url) "I_issue"))
   = Ok (Some {| url := Some Cases.odd; issue_body := Some (JString "Hello") |}) /\
   exists e st' events,
     webhook (Cases.answering Cases.odd_url) Demo.config (Demo.signed Demo.created)
       (Cases.start Cases.odd_url)
     = (Throw e, st') /\
     trace st' = trace (Cases.start Cases.odd_url) ++ events /\
     api_calls events
     = [AxiosPost "https://api.github.com/graphql"
          (graphql_request (Some (JString "I_issue"))) (graphql_headers Demo.config)]).
Proof.
  split; (split; [reflexivity|]).
  - apply (webhook_url_not_text (Cases.answering Cases.number_url) Demo.config
             "s3cret" "PVT_1" (Demo.signed Demo.created) (Cases.start Cases.number_url)
             (Some (JString "I_issue")) "I_issue"
             {| url := Some (JNumber 7%float); issue_body := Some (JString "Hello") |}
             (snd (getIssueDetails (Cases.answering Cases.number_url) Demo.config
                     (Some (JString "I_issue"))
                     (asking (Cases.start Cases.number_url) "I_issue")))
             eq_refl eq_refl eq_refl eq_refl eq_refl eq_refl eq_refl eq_refl eq_refl eq_refl).
    intros s Hs. discriminate Hs.
  - apply (webhook_url_not_text (Cases.answering Cases.odd_url) Demo.config
             "s3cret" "PVT_1" (Demo.signed Demo.created) (Cases.start Cases.odd_url)
             (Some (JString "I_issue")) "I_issue"
             {| url := Some Cases.odd; issue_body := Some (JString "Hello") |}
             (snd (getIssueDetails (Cases.answering Cases.odd_url) Demo.config
                     (Some (JString "I_issue"))
                     (asking (Cases.start Cases.odd_url) "I_issue")))
             eq_refl eq_refl eq_refl eq_refl eq_refl eq_refl eq_refl eq_refl eq_refl eq_refl).
    intros s Hs. discriminate Hs.
Defined.

(** X16: with the secret set, whenever the handler answers, the status is
    403 if the signature header is not the expected one and 200 if it is:
    no other status is ever sent, and nothing that happens after the
    signature check (a skipped event, a failed lookup, a failed update)
    changes the 200. *)
Theorem webhook_status (P : Platform) (cfg : Config) (secret : string)
    (req : Request) (st st' : State P) (resp : Response) :
  GITHUB_WEBHOOK_SECRET cfg = Some secret ->
  webhook P cfg req st = (Ok resp, st') ->
  (status resp = 403 /\
   headers req !! X_HUB_SIGNATURE_256 <> Some (expected_signature P secret req)) \/
  (status resp = 200 /\
   headers req !! X_HUB_SIGNATURE_256 = Some (expected_signature P secret req)).
Proof.
  intros Hsecret Hrun.
  destruct (decide (headers req !! X_HUB_SIGNATURE_256
                    = Some (expected_signature P secret req))) as [Hsame|Hother].
  - right. split; [|exact Hsame]. revert Hrun. unfold webhook.
    rewrite (bind_ok _ _ _ _ _ (verifySignature_true P cfg secret Hsecret req st Hsame)).
    cbn [negb].
    destruct (item_field_ok (body req) "project_node_id") as [project Hproject].
    unfold mbind at 1, M_bind at 1, lift at 1. rewrite Hproject.
    destruct (Js.strict_eq_env project (PROJECT_NODE_ID cfg)); cbn [negb];
      [|intros [= <- _]; reflexivity].
    destruct (item_field_ok (body req) "content_node_id") as [id Hid].
    unfold mbind at 1, M_bind at 1, lift at 1. rewrite Hid.
    destruct (body_action_ok (body req)) as [action Haction].
    unfold mbind at 1, M_bind at 1, lift at 1. rewrite Haction.
    destruct (Js.is_string action "created"); cbn [negb].
    2:{ unfold mbind at 1, M_bind at 1, lift at 1.
        destruct (Js.template (number_toString P) action) as [given|e]; [|discriminate].
        intros [= <- _]. reflexivity. }
    unfold mbind at 1, M_bind at 1.
    destruct (webhook_update P cfg id st) as [[[]|e] st2]; [|discriminate].
    intros [= <- _]. reflexivity.
  - left. split; [|exact Hother].
    rewrite (webhook_rejects P cfg secret Hsecret req st Hother) in Hrun.
    injection Hrun as <- _. reflexivity.
Qed.

Lemma webhook_status_witness :
  webhook Demo.platform Demo.config (Demo.forged Demo.created) Demo.hello
  = (Ok {| status := 403; sent := "Signature mismatch!" |},
     mkState (world Demo.hello) [ConsoleLog SignatureMismatch]) /\
  ((403 = 403 /\
    headers (Demo.forged Demo.created) !! X_HUB_SIGNATURE_256
    <> Some (expected_signature Demo.platform "s3cret" (Demo.forged Demo.created))) \/
   (403 = 200 /\
    headers (Demo.forged Demo.created) !! X_HUB_SIGNATURE_256
    = Some (expected_signature Demo.platform "s3cret" (Demo.forged Demo.created)))).
Proof.
  split; [reflexivity|].
  apply (webhook_status Demo.platform Demo.config "s3cret" (Demo.forged Demo.created)
           Demo.hello (mkState (world Demo.hello) [ConsoleLog SignatureMismatch])
           {| status := 403; sent := "Signature mismatch!" |} eq_refl eq_refl).
Defined.
